(** * easydns: the query resolution engine

    A shallow embedding of [easydns.go]: the record store, the construction
    of answer records in [handleDNSRequest], the upstream forwarder
    [requestFromUpsreamServers], and the handling of the questions of one
    query.  The DNS protocol library (github.com/miekg/dns) is not part of
    the repository; the three entry points the program calls ([dns.NewRR],
    [Msg.SetReply], [Client.Exchange]) are taken as a parameter ([Library]),
    and what a theorem needs from them is stated as an explicit contract. *)

From Stdlib Require Import ZArith List String Ascii Bool Lia.
From stdpp Require Import base strings pretty list gmap.

Local Open Scope Z_scope.

(** ** Go strings: [strings.HasSuffix], [strings.TrimSuffix] *)

Module strings.

(** [strings.HasSuffix(s, suffix)]:
    [len(s) >= len(suffix) && s[len(s)-len(suffix):] == suffix]. *)
Definition HasSuffix (s suffix : string) : bool :=
  (String.length suffix <=? String.length s)%nat
  && String.eqb
       (substring (String.length s - String.length suffix)
                  (String.length suffix) s)
       suffix.

(** [strings.TrimSuffix(s, suffix)]: [s] without the trailing [suffix]
    when it has it, [s] unchanged otherwise.  The suffix is removed once. *)
Definition TrimSuffix (s suffix : string) : string :=
  if HasSuffix s suffix
  then substring 0 (String.length s - String.length suffix) s
  else s.

End strings.

(** ** Go formatting: [fmt.Sprintf] for the verbs the program uses *)

Module fmt.

(** An operand of [Sprintf]: a Go [string] or a Go [int].  An [error]
    operand is passed as its message, which is what [%v] prints for it. *)
Inductive arg : Type :=
| Str (s : string)
| Int (z : Z).

(** An operand as Go prints it in a formatting error: its type and value. *)
Definition typed (a : arg) : string :=
  match a with
  | Str s => "string=" +:+ s
  | Int z => "int=" +:+ pretty z
  end.

(** The text one verb produces for one operand.  [%s] and [%v] print a
    string as it is, [%d] and [%v] print an integer in decimal with a
    leading minus sign when negative; a verb applied to the other kind of
    operand prints as Go reports the mismatch. *)
Definition verb (c : ascii) (a : arg) : string :=
  match a with
  | Str s =>
      if Ascii.eqb c "s" || Ascii.eqb c "v" then s
      else "%!" +:+ String c ("(" +:+ typed a +:+ ")")
  | Int z =>
      if Ascii.eqb c "d" || Ascii.eqb c "v" then pretty z
      else "%!" +:+ String c ("(" +:+ typed a +:+ ")")
  end.

(** Operands left over when the format is used up. *)
Fixpoint join_typed (a : list arg) : string :=
  match a with
  | [] => EmptyString
  | [x] => typed x
  | x :: a' => typed x +:+ ", " +:+ join_typed a'
  end.

Definition extra (a : list arg) : string :=
  match a with
  | [] => EmptyString
  | _ :: _ => "%!(EXTRA " +:+ join_typed a +:+ ")"
  end.

(** [fmt.Sprintf(format, a...)]: the format is copied, each [%c] consumes
    the next operand.  The program only uses [%s], [%d] and [%v], without
    flags or widths, and always with as many operands as verbs; other
    verbs, flags and widths are not modelled. *)
Fixpoint Sprintf (format : string) (a : list arg) : string :=
  match format with
  | EmptyString => extra a
  | String c rest =>
      if Ascii.eqb c "%" then
        match rest with
        | EmptyString => "%!(NOVERB)" +:+ extra a
        | String v rest' =>
            if Ascii.eqb v "%" then String "%" (Sprintf rest' a)
            else
              match a with
              | x :: a' => verb v x +:+ Sprintf rest' a'
              | [] => "%!" +:+ String v ("(MISSING)" +:+ Sprintf rest' [])
              end
        end
      else String c (Sprintf rest a)
  end.

End fmt.

(** ** The types of the DNS library the program reads and writes *)

Definition error : Type := string.

(** [dns.Question]. *)
Record dns_Question : Type := mkQuestion {
  Name : string;
  Qtype : Z;
  Qclass : Z
}.

(** [dns.RR_Header], with the record type kept by its mnemonic. *)
Record dns_RR_Header : Type := mkHeader {
  Hdr_Name : string;
  Rrtype : string;
  Class : string;
  Ttl : Z
}.

(** [dns.RR] in presentation form: the header and the text of the rdata
    (for MX "preference exchange", for SRV "priority weight port target").
    How the library stores and normalises the rdata of each type is not
    modelled. *)
Record dns_RR : Type := mkRR {
  Header : dns_RR_Header;
  Rdata : string
}.

(** [rr.Header().Ttl = ttl]. *)
Definition set_Ttl (rr : dns_RR) (ttl : Z) : dns_RR :=
  {| Header := {| Hdr_Name := Hdr_Name (Header rr);
                  Rrtype := Rrtype (Header rr);
                  Class := Class (Header rr);
                  Ttl := ttl |};
     Rdata := Rdata rr |}.

(** [dns.Msg]: the header fields and sections the program and its
    specification refer to. *)
Record dns_Msg : Type := mkMsg {
  Id : Z;
  Response : bool;
  Rcode : Z;
  Question : list dns_Question;
  Answer : list dns_RR
}.

(** [dns.Msg{}], the zero value. *)
Definition Msg_zero : dns_Msg :=
  {| Id := 0; Response := false; Rcode := 0; Question := []; Answer := [] |}.

(** [msg.Answer = append(msg.Answer, rrs...)]. *)
Definition append_Answer (msg : dns_Msg) (rrs : list dns_RR) : dns_Msg :=
  {| Id := Id msg; Response := Response msg; Rcode := Rcode msg;
     Question := Question msg; Answer := Answer msg ++ rrs |}.

Definition RcodeSuccess : Z := 0.
Definition RcodeServerFailure : Z := 2.
Definition RcodeNameError : Z := 3.

(** ** The configuration of the program *)

(** [type Record struct]. [Priority] is a Go [int], [TTL] a [uint32]; the
    program only prints the one and copies the other. *)
Record Record_ : Type := mkRecord {
  Type_ : string;
  Value : string;
  Priority : Z;
  TTL : Z
}.

(** [type Records map[string]Record]. *)
Abbreviation Records := (gmap string Record_).

Record ForwardingConfig : Type := mkForwardingConfig {
  Enabled : bool;
  Servers : list string
}.

Record ServerConfig : Type := mkServerConfig {
  BindAddress : string;
  Port : string
}.

Record Config : Type := mkConfig {
  Forwarding : ForwardingConfig;
  Server : ServerConfig;
  Config_Records : Records
}.

Definition DefaultConfig : Config :=
  {| Forwarding := {| Enabled := true;
                      Servers := ["8.8.8.8:53"; "8.8.4.4:53"]%string |};
     Server := {| BindAddress := ""; Port := "53" |};
     Config_Records :=
       <["test.com"%string :=
           {| Type_ := "A"; Value := "127.0.0.1"; Priority := 0; TTL := 600 |}]>
       (<["www.test.com"%string :=
           {| Type_ := "CNAME"; Value := "test.com"; Priority := 0; TTL := 600 |}]>
       (<["mail.test.com"%string :=
           {| Type_ := "MX"; Value := "mail.somehost.com"; Priority := 10;
              TTL := 60 |}]> ∅)) |}.

(** ** The DNS library and the outside world *)

(** The entry points of the DNS library the program calls.
    - [NewRR s] is [dns.NewRR(s)]: the record read from one line of
      presentation text, or the error of the parser.
    - [SetReply msg request] is [msg.SetReply(request)].
    - [Exchange past m server] is [c.Exchange(m, server)] on the UDP client:
      the response of [server], or a transport error.  The network is
      outside the program, so the outcome may depend on [past], the
      exchanges attempted before this one. *)
Record Library : Type := mkLibrary {
  NewRR : string -> dns_RR + error;
  SetReply : dns_Msg -> dns_Msg -> dns_Msg;
  Exchange : list (string * dns_Msg) -> dns_Msg -> string -> dns_Msg + error
}.

(** What the program does to the outside: the exchanges attempted with
    upstream servers (server, message sent), the lines handed to [log], and
    the messages written to the client, each in order of occurrence. *)
Record World : Type := mkWorld {
  exchanged : list (string * dns_Msg);
  logged : list string;
  written : list dns_Msg
}.

Definition World_start : World :=
  {| exchanged := []; logged := []; written := [] |}.

(** [log.Printf] and [log.Println] (the timestamp prefix is left out). *)
Definition log_Print (line : string) (w : World) : World :=
  {| exchanged := exchanged w; logged := logged w ++ [line];
     written := written w |}.

(** [dns.ResponseWriter]: the peer address, and [WriteMsg]. *)
Record ResponseWriter : Type := mkResponseWriter {
  RemoteAddr : string
}.

Definition WriteMsg (msg : dns_Msg) (w : World) : World :=
  {| exchanged := exchanged w; logged := logged w;
     written := written w ++ [msg] |}.

(** How a call of the handler ends: it returns, or the Go runtime panics. *)
Inductive Outcome : Type :=
| Returned (w : World)
| Panicked (reason : string) (w : World).

Definition world_of (o : Outcome) : World :=
  match o with Returned w => w | Panicked _ w => w end.

Section Engine.

Variable lib : Library.

(** [c.Exchange(r, server)] in world [w]: the attempt is recorded. *)
Definition do_Exchange (r : dns_Msg) (server : string) (w : World)
  : (dns_Msg + error) * World :=
  (Exchange lib (exchanged w) r server,
   {| exchanged := exchanged w ++ [(server, r)]; logged := logged w;
      written := written w |}).

(** [func requestFromUpsreamServers]: the servers are tried in the order
    of the slice; the first exchange without error ends the loop. *)
Fixpoint requestFromUpsreamServers (r : dns_Msg)
    (upstreamServers : list string) (w : World)
  : (dns_Msg + error) * World :=
  match upstreamServers with
  | [] => (inr "failed to get response from upstream servers"%string, w)
  | server :: rest =>
      match do_Exchange r server w with
      | (inl resp, w') => (inl resp, w')
      | (inr _, w') => requestFromUpsreamServers r rest w'
      end
  end.

(** The global [config] and the [records] the handler was built with. *)
Variable config : Config.
Variable records : Records.

(** The [switch record.Type] of [handleDNSRequest]: the call of
    [dns.NewRR] for the record, or [None] in the [default] case. *)
Definition newRecord (q : dns_Question) (record : Record_)
  : option (dns_RR + error) :=
  let t := Type_ record in
  if String.eqb t "A" || String.eqb t "AAAA" || String.eqb t "CNAME"
     || String.eqb t "TXT" || String.eqb t "NS" || String.eqb t "PTR"
  then Some (NewRR lib (fmt.Sprintf "%s %s %s"
               [fmt.Str (Name q); fmt.Str t; fmt.Str (Value record)]))
  else if String.eqb t "MX"
  then Some (NewRR lib (fmt.Sprintf "%s %s %d %s"
               [fmt.Str (Name q); fmt.Str t; fmt.Int (Priority record);
                fmt.Str (Value record)]))
  else if String.eqb t "SRV"
  then Some (NewRR lib (fmt.Sprintf "%s %s %d %d %d %s"
               [fmt.Str (Name q); fmt.Str t; fmt.Int (Priority record);
                fmt.Int 0; fmt.Int 0; fmt.Str (Value record)]))
  else None.

(** The body of [for _, q := range r.Question] in [handleDNSRequest], on
    the reply [msg] under construction. *)
Definition handleQuestion (r : dns_Msg) (st : dns_Msg * World)
    (q : dns_Question) : dns_Msg * World :=
  let (msg, w) := st in
  let domain := strings.TrimSuffix (Name q) "." in
  match records !! domain with
  | Some record =>
      match newRecord q record with
      | None =>
          (msg, log_Print (fmt.Sprintf "Unsupported record type: %s"
                             [fmt.Str (Type_ record)]) w)
      | Some (inl rr) =>
          (append_Answer msg [set_Ttl rr (TTL record)], w)
      | Some (inr err) =>
          (msg, log_Print (fmt.Sprintf "Failed to create RR: %v"
                             [fmt.Str err]) w)
      end
  | None =>
      if Enabled (Forwarding config) then
        match requestFromUpsreamServers r (Servers (Forwarding config)) w with
        | (inr err, w') => (msg, log_Print err w')
        | (inl upstreamResponse, w') =>
            (append_Answer msg (Answer upstreamResponse), w')
        end
      else (msg, w)
  end.

(** The whole loop over [r.Question]. *)
Definition handleQuestions (r : dns_Msg) (qs : list dns_Question)
    (st : dns_Msg * World) : dns_Msg * World :=
  fold_left (handleQuestion r) qs st.

(** The function returned by [handleDNSRequest(records)], applied to the
    writer [rw] and the query [r]. *)
Definition handleDNSRequest (rw : ResponseWriter) (r : dns_Msg)
    (w : World) : Outcome :=
  let msg := SetReply lib Msg_zero r in
  let (msg', w1) := handleQuestions r (Question r) (msg, w) in
  let w2 := WriteMsg msg' w1 in
  match Question r with
  | [] => Panicked "index out of range [0] with length 0" w2
  | q0 :: _ =>
      Returned (log_Print (fmt.Sprintf "query: %s from: %s"
                  [fmt.Str (Name q0); fmt.Str (RemoteAddr rw)]) w2)
  end.

End Engine.

(** ** A reference library, for running the engine on concrete queries *)

Module Reference.

(** Split at the first blank: the text before it, and the text after it
    when there is a blank. *)
Fixpoint cut (s : string) : string * option string :=
  match s with
  | EmptyString => (EmptyString, None)
  | String c s' =>
      if Ascii.eqb c " " then (EmptyString, Some s')
      else let (a, b) := cut s' in (String c a, b)
  end.

Fixpoint no_blank (s : string) : bool :=
  match s with
  | EmptyString => true
  | String c s' => negb (Ascii.eqb c " ") && no_blank s'
  end.

Definition mnemonics : list string :=
  ["A"; "AAAA"; "CNAME"; "TXT"; "NS"; "PTR"; "MX"; "SRV"]%string.

Definition is_mnemonic (t : string) : bool :=
  existsb (String.eqb t) mnemonics.

(** A reader of "owner type rdata" lines: class IN, the default TTL of
    3600 seconds, the rdata kept as text.  A line without the three
    fields, with an unknown type or with empty fields is refused. *)
Definition NewRR (s : string) : dns_RR + error :=
  match cut s with
  | (n, Some rest) =>
      match cut rest with
      | (t, Some d) =>
          if negb (String.eqb n "") && is_mnemonic t
             && negb (String.eqb d "")
          then inl {| Header := {| Hdr_Name := n; Rrtype := t;
                                   Class := "IN"; Ttl := 3600 |};
                      Rdata := d |}
          else inr ("dns: bad record: " +:+ s)
      | (_, None) => inr ("dns: missing rdata: " +:+ s)
      end
  | (_, None) => inr ("dns: missing type: " +:+ s)
  end.

(** The reply header for a request: its identifier, the response bit, no
    error code, its first question; the sections of [msg] are kept. *)
Definition SetReply (msg request : dns_Msg) : dns_Msg :=
  {| Id := Id request; Response := true; Rcode := RcodeSuccess;
     Question := match Question request with
                 | [] => Question msg
                 | q :: _ => [q]
                 end;
     Answer := Answer msg |}.

(** A network of upstream servers: [up server] is the response the
    server gives to any message, or the transport error met. *)
Definition Exchange (up : string -> dns_Msg + error)
    (past : list (string * dns_Msg)) (m : dns_Msg) (server : string)
  : dns_Msg + error := up server.

Definition library (up : string -> dns_Msg + error) : Library :=
  mkLibrary NewRR SetReply (Exchange up).

(** No upstream server can be reached. *)
Definition offline (server : string) : dns_Msg + error :=
  inr "i/o timeout"%string.

End Reference.

(** ** What one question contributes to the reply *)

Section Answers.

Variable lib : Library.
Variable config : Config.
Variable records : Records.

(** The records the loop body appends for [q] in world [w], and the world
    it leaves: the body run on a reply without answers. *)
Definition questionAnswers (r : dns_Msg) (q : dns_Question) (w : World)
  : list dns_RR :=
  Answer (fst (handleQuestion lib config records r (Msg_zero, w) q)).

Definition questionWorld (r : dns_Msg) (q : dns_Question) (w : World)
  : World :=
  snd (handleQuestion lib config records r (Msg_zero, w) q).

(** The contributions of the questions [qs], one list per question, each
    computed in the world the questions before it have left. *)
Fixpoint answersInOrder (r : dns_Msg) (qs : list dns_Question) (w : World)
  : list (list dns_RR) :=
  match qs with
  | [] => []
  | q :: qs' =>
      questionAnswers r q w :: answersInOrder r qs' (questionWorld r q w)
  end.

Fixpoint worldAfter (r : dns_Msg) (qs : list dns_Question) (w : World)
  : World :=
  match qs with
  | [] => w
  | q :: qs' => worldAfter r qs' (questionWorld r q w)
  end.

(** The three ways a question can fail (section 7 of the specification),
    read off the branches of the loop body. *)
Inductive Failure : Type :=
| UnsupportedRecordType
| MalformedRecordData
| AllUpstreamsFailed.

Definition failure (r : dns_Msg) (q : dns_Question) (w : World)
  : option Failure :=
  match records !! strings.TrimSuffix (Name q) "." with
  | Some record =>
      match newRecord lib q record with
      | None => Some UnsupportedRecordType
      | Some (inr _) => Some MalformedRecordData
      | Some (inl _) => None
      end
  | None =>
      if Enabled (Forwarding config) then
        match fst (requestFromUpsreamServers lib r
                     (Servers (Forwarding config)) w) with
        | inr _ => Some AllUpstreamsFailed
        | inl _ => None
        end
      else None
  end.

(** A question misses the store. *)
Definition misses (q : dns_Question) : bool :=
  match records !! strings.TrimSuffix (Name q) "." with
  | Some _ => false
  | None => true
  end.

End Answers.

(** ** Contracts of the DNS library *)

(** The record types the handler knows, and those with a single rdata
    field. *)
Definition supported : list string :=
  ["A"; "AAAA"; "CNAME"; "TXT"; "NS"; "PTR"; "MX"; "SRV"]%string.




(** [Msg.SetReply] copies the transaction identifier of the request, marks
    the message as a response without error code, and leaves the answer
    section of the message alone. *)
Definition SetReply_copies (lib : Library) : Prop :=
  forall (msg request : dns_Msg),
    Id (SetReply lib msg request) = Id request
    /\ Response (SetReply lib msg request) = true
    /\ Rcode (SetReply lib msg request) = RcodeSuccess
    /\ Answer (SetReply lib msg request) = Answer msg.

(** ** The exchanges of one pass over the upstream servers *)

(** The exchanges on record once the first [n] of [servers] have been
    tried with the message [r], starting in world [w]. *)
Definition attempts (w : World) (r : dns_Msg) (servers : list string)
    (n : nat) : list (string * dns_Msg) :=
  exchanged w ++ map (fun s => (s, r)) (firstn n servers).

Definition with_exchanged (w : World) (l : list (string * dns_Msg)) : World :=
  {| exchanged := l; logged := logged w; written := written w |}.

(** The error of the forwarder when no server answered. *)
Definition allUpstreamsFailed : error :=
  "failed to get response from upstream servers"%string.

(** ** Sample configurations, queries and networks *)

Module Examples.

(** The records of [DefaultConfig], an SRV record, a record of a type the
    handler does not know, and an address record without an address. *)
Definition records : Records :=
  <["_sip._tcp.test.com"%string :=
      {| Type_ := "SRV"; Value := "sip.test.com"; Priority := 5; TTL := 30 |}]>
  (<["old.test.com"%string :=
      {| Type_ := "SPF"; Value := "v=spf1 -all"; Priority := 0; TTL := 300 |}]>
  (<["bad.test.com"%string :=
      {| Type_ := "A"; Value := ""; Priority := 0; TTL := 300 |}]>
   (Config_Records DefaultConfig))).

Definition record_A : Record_ :=
  {| Type_ := "A"; Value := "127.0.0.1"; Priority := 0; TTL := 600 |}.
Definition record_SPF : Record_ :=
  {| Type_ := "SPF"; Value := "v=spf1 -all"; Priority := 0; TTL := 300 |}.

(** Forwarding disabled, and forwarding to the two default servers. *)
Definition config_off : Config :=
  {| Forwarding := {| Enabled := false; Servers := [] |};
     Server := Server DefaultConfig; Config_Records := records |}.

Definition config_on : Config :=
  {| Forwarding := Forwarding DefaultConfig;
     Server := Server DefaultConfig; Config_Records := records |}.

Definition q_test : dns_Question := mkQuestion "test.com." 1 1.
Definition q_mail : dns_Question := mkQuestion "mail.test.com." 15 1.
Definition q_old : dns_Question := mkQuestion "old.test.com." 99 1.
Definition q_bad : dns_Question := mkQuestion "bad.test.com." 1 1.
Definition q_unknown : dns_Question := mkQuestion "unknown.test.com." 1 1.
Definition q_other : dns_Question := mkQuestion "other.example.org." 1 1.
Definition q_upper : dns_Question := mkQuestion "TEST.COM." 1 1.
Definition q_sub : dns_Question := mkQuestion "a.test.com." 1 1.

Definition query (qs : list dns_Question) : dns_Msg :=
  {| Id := 4242; Response := false; Rcode := 0; Question := qs; Answer := [] |}.

Definition rw : ResponseWriter := {| RemoteAddr := "192.0.2.7:53000" |}.

(** An upstream answer with two records, and a name-error response. *)
Definition rr_up1 : dns_RR :=
  {| Header := {| Hdr_Name := "unknown.test.com."; Rrtype := "A";
                  Class := "IN"; Ttl := 120 |};
     Rdata := "203.0.113.1" |}.
Definition rr_up2 : dns_RR :=
  {| Header := {| Hdr_Name := "other.example.org."; Rrtype := "A";
                  Class := "IN"; Ttl := 120 |};
     Rdata := "203.0.113.2" |}.

Definition response_up : dns_Msg :=
  {| Id := 4242; Response := true; Rcode := RcodeSuccess;
     Question := [q_unknown]; Answer := [rr_up1; rr_up2] |}.

Definition response_nx : dns_Msg :=
  {| Id := 4242; Response := true; Rcode := RcodeNameError;
     Question := [q_unknown]; Answer := [] |}.

(** The first default server answers. *)
Definition first_answers (server : string) : dns_Msg + error :=
  if String.eqb server "8.8.8.8:53" then inl response_up
  else inr "i/o timeout"%string.

(** The first default server times out, the second reports a name error. *)
Definition second_answers (server : string) : dns_Msg + error :=
  if String.eqb server "8.8.4.4:53" then inl response_nx
  else inr "i/o timeout"%string.

End Examples.

(** ** Which questions fail, in the order of the query *)

(** The failure of each question of [qs], if any, each judged in the world
    the questions before it have left. *)
Fixpoint failuresInOrder (lib : Library) (config : Config) (records : Records)
    (r : dns_Msg) (qs : list dns_Question) (w : World)
  : list (option Failure) :=
  match qs with
  | [] => []
  | q :: qs' =>
      failure lib config records r q w
      :: failuresInOrder lib config records r qs'
           (questionWorld lib config records r q w)
  end.

Definition failed (f : option Failure) : bool :=
  match f with Some _ => true | None => false end.

(** The same configuration with forwarding switched off. *)
Definition without_forwarding (config : Config) : Config :=
  {| Forwarding := {| Enabled := false;
                      Servers := Servers (Forwarding config) |};
     Server := Server config; Config_Records := Config_Records config |}.

(** ** Loading the configuration, and [main] *)

Definition defaultConfigPath : string := "~/.easydns/config.json".

(** [strings.Join(elems, sep)]. *)
Fixpoint strings_Join (elems : list string) (sep : string) : string :=
  match elems with
  | [] => EmptyString
  | [a] => a
  | a :: rest => a +:+ sep +:+ strings_Join rest sep
  end.

(** The line feed of Go string literals. *)
Definition nl : string := String "010"%char EmptyString.

(** [ConfigNotFoundError] and [ConfigMalformedError], the two error types
    [LoadConfig] returns, each holding the error it wraps. *)
Inductive LoadError : Type :=
| ConfigNotFoundError (originalError : error)
| ConfigMalformedError (originalError : error).

(** The two [Error() string] methods. *)
Definition Error (e : LoadError) : string :=
  match e with
  | ConfigNotFoundError originalError =>
      fmt.Sprintf "config file not found: %v" [fmt.Str originalError]
  | ConfigMalformedError originalError =>
      fmt.Sprintf "config file is malformed: %v" [fmt.Str originalError]
  end.

(** The flags of the two flag sets after [Parse]: the three booleans of
    the "config" set, and the value given for [-config-path], if any (the
    variable [configPath], shared by both sets, holds [defaultConfigPath]
    until a flag sets it). *)
Record ConfigFlags : Type := mkConfigFlags {
  saveConfig : bool;
  printConfig : bool;
  printDefault : bool;
  config_path : option string
}.

(** How [server.ListenAndServe()] ends: it keeps serving, or it returns,
    with an error or without. *)
Inductive ServeResult : Type :=
| Blocks
| Returns (err : option error).

(** What [main] uses of the Go runtime and libraries.
    - [os_ReadFile name] and [os_WriteFile name data perm]: the file
      system as [main] finds it.
    - [json_Unmarshal data]: [json.Unmarshal] into a zero [Config].
    - [json_MarshalIndent c]: [json.MarshalIndent] of [c] with the indent
      of two blanks the program asks for.
    - [Parse_config args], [Parse_run args]: [Parse] on the two flag sets,
      both [flag.ExitOnError]: the flags read, or the exit code with which
      the flag package ends the process.
    - [ListenAndServe addr]: the UDP server on [addr]. *)
Record System : Type := mkSystem {
  os_ReadFile : string -> string + error;
  os_WriteFile : string -> string -> Z -> option error;
  json_Unmarshal : string -> Config + error;
  json_MarshalIndent : Config -> string + error;
  Parse_config : list string -> ConfigFlags + Z;
  Parse_run : list string -> option string + Z;
  ListenAndServe : string -> ServeResult
}.

(** What [main] does, in order: text on standard output, a call of
    [Usage] on a flag set, a file read or written, a line handed to [log],
    the registration of the handler, the start of the server.  What the
    flag package itself prints when it refuses the arguments is not
    recorded. *)
Inductive Event : Type :=
| Stdout (text : string)
| Usage (flagset : string)
| Read (filename : string)
| Write (filename data : string) (perm : Z)
| Logged (line : string)
| HandleFunc (pattern : string) (records : Records)
| Listen (addr net : string).

(** How [main] ends: the process exits with a code, [main] returns, or the
    server keeps serving with the global [config] it loaded. *)
Inductive Exit : Type :=
| ExitCode (code : Z)
| MainReturns
| Serving (config : Config).

(** [log.Fatalf(format, err)]: the line is logged and the process exits
    with code 1. *)
Definition log_Fatalf (format : string) (err : string) : list Event * Exit :=
  ([Logged (fmt.Sprintf format [fmt.Str err])], ExitCode 1).

Section Main.

Variable sys : System.

(** [func LoadConfig]: the configuration read from the file, or which
    of the two steps failed. *)
Definition LoadConfig (filename : string) : Config + LoadError :=
  match os_ReadFile sys filename with
  | inr err => inr (ConfigNotFoundError err)
  | inl data =>
      match json_Unmarshal sys data with
      | inr err => inr (ConfigMalformedError err)
      | inl config => inl config
      end
  end.

(** [printUsages(configCmd, runCmd)]. *)
Definition printUsages (flagSets : list string) : list Event :=
  map Usage flagSets.

(** The "config" case of [main], after [configCmd.Parse]. *)
Definition main_config (flags : ConfigFlags) : list Event * Exit :=
  let configPath := from_option id defaultConfigPath (config_path flags) in
  if saveConfig flags then
    match json_MarshalIndent sys DefaultConfig with
    | inr err => log_Fatalf "failed to marshal default config: %v" err
    | inl data =>
        match os_WriteFile sys configPath data 420 with
        | Some err =>
            let (ev, ex) := log_Fatalf "failed to save default config: %v" err in
            (Write configPath data 420 :: ev, ex)
        | None => ([Write configPath data 420], ExitCode 0)
        end
    end
  else if printConfig flags then
    let loaded : list Event * (Config + LoadError) :=
      if printDefault flags then ([], inl DefaultConfig)
      else ([Read configPath], LoadConfig configPath) in
    match loaded with
    | (ev, inr err) =>
        let (ev', ex) := log_Fatalf "cannot print config because %v" (Error err) in
        (ev ++ ev', ex)
    | (ev, inl config) =>
        match json_MarshalIndent sys config with
        | inr err =>
            let (ev', ex) := log_Fatalf "failed to marshal default config: %v" err in
            (ev ++ ev', ex)
        | inl data => (ev ++ [Stdout (data +:+ nl)], ExitCode 0)
        end
    end
  else ([Usage "config"], ExitCode 0).

(** The statements of [main] after the [switch]: load the configuration,
    register the handler, start the server. *)
Definition main_serve (configPath : string) : list Event * Exit :=
  match LoadConfig configPath with
  | inr err =>
      let (ev, ex) := log_Fatalf "failed to load config: %v" (Error err) in
      (Read configPath :: ev, ex)
  | inl config =>
      let addr :=
        strings_Join [BindAddress (Server config); Port (Server config)] ":" in
      let ev :=
        [Read configPath;
         HandleFunc "." (Config_Records config);
         Logged (fmt.Sprintf "starting DNS server on port %s"
                   [fmt.Str (Port (Server config))]);
         Listen addr "udp"] in
      match ListenAndServe sys addr with
      | Blocks => (ev, Serving config)
      | Returns (Some err) =>
          let (ev', ex) := log_Fatalf "failed to start server: %v" err in
          (ev ++ ev', ex)
      | Returns None => (ev, MainReturns)
      end
  end.

(** [func main()], on [os.Args]. *)
Definition main (Args : list string) : list Event * Exit :=
  match Args with
  | [] | [_] =>
      (Stdout (fmt.Sprintf ("Usage: %s [config|run]" +:+ nl +:+ nl +:+ nl)
                 [fmt.Str "easydns"])
       :: printUsages ["config"; "run"]%string,
       ExitCode 1)
  | _ :: command :: rest =>
      if String.eqb command "config" then
        match Parse_config sys rest with
        | inr code => ([], ExitCode code)
        | inl flags => main_config flags
        end
      else if String.eqb command "run" then
        match Parse_run sys rest with
        | inr code => ([], ExitCode code)
        | inl path => main_serve (from_option id defaultConfigPath path)
        end
      else main_serve defaultConfigPath
  end.

End Main.

(** Events by kind: the registration of the handler or the start of the
    server; an access to the file system. *)
Definition starts_server (e : Event) : bool :=
  match e with
  | HandleFunc _ _ | Listen _ _ => true
  | _ => false
  end.

Definition touches_files (e : Event) : bool :=
  match e with
  | Read _ | Write _ _ _ => true
  | _ => false
  end.

(** The reply a call of the handler has written last, if any. *)
Definition reply_of (o : Outcome) : option dns_Msg :=
  last (written (world_of o)).

(** ** A sample system for [main] *)

Module Sample.

(** One configuration file, holding the text [config_text]. *)
Definition config_file : string := "/etc/easydns.json".
Definition config_text : string := "{forwarding off, sample records}".

Definition ReadFile (name : string) : string + error :=
  if String.eqb name config_file then inl config_text
  else inr ("open " +:+ name +:+ ": no such file or directory").

Definition WriteFile (name data : string) (perm : Z) : option error := None.

Definition Unmarshal (data : string) : Config + error :=
  if String.eqb data config_text then inl Examples.config_off
  else inr "invalid character"%string.

(** A stand-in for the JSON text of a configuration. *)
Definition MarshalIndent (c : Config) : string + error :=
  inl ("{port: " +:+ Port (Server c) +:+ "}").

(** A reader of flags written [-name] and, for [-config-path], followed by
    the value; anything else ends the process with code 2. *)
Fixpoint parse_config (args : list string) (f : ConfigFlags)
  : ConfigFlags + Z :=
  match args with
  | [] => inl f
  | a :: rest =>
      if String.eqb a "-save" then
        parse_config rest
          (mkConfigFlags true (printConfig f) (printDefault f) (config_path f))
      else if String.eqb a "-print" then
        parse_config rest
          (mkConfigFlags (saveConfig f) true (printDefault f) (config_path f))
      else if String.eqb a "-template" then
        parse_config rest
          (mkConfigFlags (saveConfig f) (printConfig f) true (config_path f))
      else if String.eqb a "-config-path" then
        match rest with
        | v :: rest' =>
            parse_config rest'
              (mkConfigFlags (saveConfig f) (printConfig f) (printDefault f)
                 (Some v))
        | [] => inr 2
        end
      else inr 2
  end.

Definition Parse_config (args : list string) : ConfigFlags + Z :=
  parse_config args (mkConfigFlags false false false None).

Definition Parse_run (args : list string) : option string + Z :=
  match args with
  | [] => inl None
  | [a; v] => if String.eqb a "-config-path" then inl (Some v) else inr 2
  | _ => inr 2
  end.

Definition system : System :=
  mkSystem ReadFile WriteFile Unmarshal MarshalIndent Parse_config Parse_run
    (fun _ => Blocks).

End Sample.

(** Forwarding enabled, without any server. *)
Definition config_no_servers : Config :=
  {| Forwarding := {| Enabled := true; Servers := [] |};
     Server := Server DefaultConfig; Config_Records := Examples.records |}.

(** ** What the program needs of [dns.NewRR] *)


(** ** A reader of records that normalises the rdata *)

Module Zone.

(** A host name made absolute: the root is appended to a relative name. *)
Definition absolute (s : string) : string :=
  if strings.HasSuffix s "." then s else s +:+ ".".

(** A name: one token, not empty. *)
Definition is_name (s : string) : bool :=
  negb (String.eqb s "") && Reference.no_blank s.

(** The number a string of decimal digits denotes. *)
Fixpoint number (s : string) (acc : N) : option N :=
  match s with
  | EmptyString => Some acc
  | String c s' =>
      match Ascii.is_nat c with
      | Some d => number s' (10 * acc + N.of_nat d)%N
      | None => None
      end
  end.

Definition uint (bound : N) (s : string) : bool :=
  negb (String.eqb s "")
  && match number s 0 with
     | Some n => (n <=? bound)%N
     | None => false
     end.

(** The fields of [s] between occurrences of [sep]. *)
Fixpoint fields (sep : ascii) (s : string) : list string :=
  match s with
  | EmptyString => [EmptyString]
  | String c s' =>
      if Ascii.eqb c sep then EmptyString :: fields sep s'
      else match fields sep s' with
           | f :: fs => String c f :: fs
           | [] => [String c EmptyString]
           end
  end.

Definition is_ipv4 (s : string) : bool :=
  match fields "." s with
  | [a; b; c; d] => uint 255 a && uint 255 b && uint 255 c && uint 255 d
  | _ => false
  end.

Fixpoint hex_or_colon (s : string) : bool :=
  match s with
  | EmptyString => true
  | String c s' =>
      (Ascii.eqb c ":"
       || match Ascii.is_nat c with Some _ => true | None => false end
       || existsb (Ascii.eqb c)
            ["a"; "b"; "c"; "d"; "e"; "f"; "A"; "B"; "C"; "D"; "E"; "F"]%char)
      && hex_or_colon s'
  end.

Definition is_ipv6 (s : string) : bool :=
  hex_or_colon s && (2 <=? length (fields ":" s))%nat.

Definition quote (s : string) : string :=
  String "034"%char (s +:+ String "034"%char EmptyString).

(** The rdata read from the text [d] for the type [t], or [None] when the
    text is refused: an address is kept, a host name is made absolute, a
    text is split at blanks into quoted strings, the numbers of MX and SRV
    must fit 16 bits.  Quotes, escapes and comments in the text, and the
    short forms of IPv6 addresses, are not modelled. *)
Definition rdata (t d : string) : option string :=
  if String.eqb t "A" then
    if is_ipv4 d then Some d else None
  else if String.eqb t "AAAA" then
    if is_ipv6 d then Some d else None
  else if String.eqb t "CNAME" || String.eqb t "NS" || String.eqb t "PTR" then
    if is_name d then Some (absolute d) else None
  else if String.eqb t "TXT" then
    match String.words d with
    | [] => None
    | ws => Some (strings_Join (map quote ws) " ")
    end
  else if String.eqb t "MX" then
    match Reference.cut d with
    | (p, Some v) =>
        if uint 65535 p && is_name v
        then Some (p +:+ " " +:+ absolute v) else None
    | (_, None) => None
    end
  else if String.eqb t "SRV" then
    match Reference.cut d with
    | (p, Some d1) =>
        match Reference.cut d1 with
        | (wt, Some d2) =>
            match Reference.cut d2 with
            | (pt, Some v) =>
                if uint 65535 p && uint 65535 wt && uint 65535 pt && is_name v
                then Some (p +:+ " " +:+ wt +:+ " " +:+ pt +:+ " "
                             +:+ absolute v)
                else None
            | (_, None) => None
            end
        | (_, None) => None
        end
    | (_, None) => None
    end
  else None.


(** A reader of "owner type rdata" lines: the owner made absolute, class
    IN, the default TTL of 3600 seconds, the rdata as [rdata] reads it. *)
Definition NewRR (s : string) : dns_RR + error :=
  match Reference.cut s with
  | (n, Some rest) =>
      match Reference.cut rest with
      | (t, Some d) =>
          if is_name n then
            match rdata t d with
            | Some x =>
                inl {| Header := {| Hdr_Name := absolute n; Rrtype := t;
                                    Class := "IN"; Ttl := 3600 |};
                       Rdata := x |}
            | None => inr ("dns: bad " +:+ t +:+ " rdata: " +:+ d)
            end
          else inr ("dns: bad owner name: " +:+ n)
      | (_, None) => inr ("dns: missing rdata: " +:+ s)
      end
  | (_, None) => inr ("dns: missing type: " +:+ s)
  end.


Definition library (up : string -> dns_Msg + error) : Library :=
  mkLibrary NewRR Reference.SetReply (Reference.Exchange up).

End Zone.



(** ** Facts on strings, [TrimSuffix] and [Sprintf] *)

Lemma append_cons (c : ascii) (s t : string) :
  String c s +:+ t = String c (s +:+ t).
Proof. reflexivity. Qed.

Lemma append_empty_r (s : string) : s +:+ "" = s.
Proof.
  induction s as [|c s IH]; [reflexivity|].
  rewrite append_cons, IH. reflexivity.
Qed.

Lemma append_assoc (s t u : string) : (s +:+ t) +:+ u = s +:+ (t +:+ u).
Proof.
  induction s as [|c s IH]; [reflexivity|].
  rewrite !append_cons, IH. reflexivity.
Qed.

Lemma length_cons_pred (c : ascii) (s : string) :
  s <> EmptyString ->
  (String.length (String c s) - 1 = S (String.length s - 1))%nat.
Proof. destruct s; [congruence|]. intros _. simpl. lia. Qed.

Lemma HasSuffix_dot_cons (c : ascii) (s : string) :
  s <> EmptyString ->
  strings.HasSuffix (String c s) "." = strings.HasSuffix s ".".
Proof.
  intros Hs. unfold strings.HasSuffix.
  change (String.length ".") with 1%nat.
  rewrite (length_cons_pred c s Hs).
  destruct s as [|d s]; [congruence|]. reflexivity.
Qed.

Lemma TrimSuffix_dot_cons (c : ascii) (s : string) :
  s <> EmptyString ->
  strings.TrimSuffix (String c s) "." = String c (strings.TrimSuffix s ".").
Proof.
  intros Hs. unfold strings.TrimSuffix.
  rewrite (HasSuffix_dot_cons c s Hs).
  change (String.length ".") with 1%nat.
  rewrite (length_cons_pred c s Hs).
  destruct (strings.HasSuffix s "."); reflexivity.
Qed.

(** A name with the trailing separator loses exactly that separator. *)
Lemma TrimSuffix_dot_app (k : string) : strings.TrimSuffix (k +:+ ".") "." = k.
Proof.
  induction k as [|c k IH]; [reflexivity|].
  rewrite append_cons, TrimSuffix_dot_cons, IH; [reflexivity|].
  destruct k; discriminate.
Qed.

(** A name that has the suffix is its trimmed form followed by it. *)
Lemma HasSuffix_dot_true (s : string) :
  strings.HasSuffix s "." = true -> s = strings.TrimSuffix s "." +:+ ".".
Proof.
  induction s as [|c s IH]; [discriminate|].
  destruct s as [|d s].
  - unfold strings.HasSuffix, strings.TrimSuffix. simpl.
    destruct (Ascii.eqb_spec c "."); [subst; reflexivity | discriminate].
  - intros H. rewrite HasSuffix_dot_cons in H by discriminate.
    rewrite TrimSuffix_dot_cons by discriminate.
    rewrite append_cons. f_equal. apply IH, H.
Qed.

Lemma HasSuffix_dot_false (s k : string) :
  strings.HasSuffix s "." = false -> s <> k +:+ ".".
Proof.
  intros H ->. revert H. induction k as [|c k IH]; [discriminate|].
  rewrite append_cons, HasSuffix_dot_cons; [exact IH|].
  destruct k; discriminate.
Qed.




Lemma Sprintf_unsupported (t : string) :
  fmt.Sprintf "Unsupported record type: %s" [fmt.Str t]
  = "Unsupported record type: " +:+ t.
Proof. cbn. rewrite append_empty_r. reflexivity. Qed.

Lemma Sprintf_failed (e : string) :
  fmt.Sprintf "Failed to create RR: %v" [fmt.Str e]
  = "Failed to create RR: " +:+ e.
Proof. cbn. rewrite append_empty_r. reflexivity. Qed.

Lemma Sprintf_query (n a : string) :
  fmt.Sprintf "query: %s from: %s" [fmt.Str n; fmt.Str a]
  = "query: " +:+ n +:+ " from: " +:+ a.
Proof. cbn. rewrite append_empty_r. reflexivity. Qed.

(** ** Facts on the loop over the questions *)

Section Engine_facts.

Variable lib : Library.
Variable config : Config.
Variable records : Records.

Lemma append_Answer_nil (msg : dns_Msg) : append_Answer msg [] = msg.
Proof. destruct msg. unfold append_Answer. simpl. rewrite app_nil_r. reflexivity. Qed.

Lemma append_Answer_app (msg : dns_Msg) (a b : list dns_RR) :
  append_Answer (append_Answer msg a) b = append_Answer msg (a ++ b).
Proof. unfold append_Answer. simpl. rewrite app_assoc. reflexivity. Qed.

(** The forwarder only adds exchanges to the world. *)
Lemma requestFromUpsreamServers_world (r : dns_Msg) (servers : list string)
    (w : World) :
  logged (snd (requestFromUpsreamServers lib r servers w)) = logged w
  /\ written (snd (requestFromUpsreamServers lib r servers w)) = written w.
Proof.
  revert w. induction servers as [|s servers IH]; intros w; [split; reflexivity|].
  simpl. unfold do_Exchange.
  destruct (Exchange lib (exchanged w) r s) as [resp|e]; [split; reflexivity|].
  exact (IH {| exchanged := exchanged w ++ [(s, r)]; logged := logged w;
               written := written w |}).
Qed.

(** The loop body appends to the reply, whatever the reply holds. *)
Lemma handleQuestion_appends (r msg : dns_Msg) (w : World) (q : dns_Question) :
  handleQuestion lib config records r (msg, w) q
  = (append_Answer msg (questionAnswers lib config records r q w),
     questionWorld lib config records r q w).
Proof.
  unfold questionAnswers, questionWorld, handleQuestion.
  destruct (records !! strings.TrimSuffix (Name q) ".") as [record|].
  - destruct (newRecord lib q record) as [[rr|e]|]; simpl;
      rewrite ?append_Answer_nil; reflexivity.
  - destruct (Enabled (Forwarding config)); simpl;
      [|rewrite append_Answer_nil; reflexivity].
    destruct (requestFromUpsreamServers lib r (Servers (Forwarding config)) w)
      as [[resp|e] w']; simpl; rewrite ?append_Answer_nil; reflexivity.
Qed.

Lemma handleQuestions_cons (r : dns_Msg) (q : dns_Question)
    (qs : list dns_Question) (st : dns_Msg * World) :
  handleQuestions lib config records r (q :: qs) st
  = handleQuestions lib config records r qs
      (handleQuestion lib config records r st q).
Proof. reflexivity. Qed.

Lemma handleQuestions_app (r : dns_Msg) (qs1 qs2 : list dns_Question)
    (st : dns_Msg * World) :
  handleQuestions lib config records r (qs1 ++ qs2) st
  = handleQuestions lib config records r qs2
      (handleQuestions lib config records r qs1 st).
Proof. unfold handleQuestions. apply fold_left_app. Qed.

(** The loop appends the contributions of the questions, in their order. *)
Lemma handleQuestions_concat (r : dns_Msg) (qs : list dns_Question)
    (msg : dns_Msg) (w : World) :
  handleQuestions lib config records r qs (msg, w)
  = (append_Answer msg (concat (answersInOrder lib config records r qs w)),
     worldAfter lib config records r qs w).
Proof.
  revert msg w. induction qs as [|q qs IH]; intros msg w.
  - simpl. rewrite append_Answer_nil. reflexivity.
  - rewrite handleQuestions_cons, handleQuestion_appends, IH.
    simpl. rewrite append_Answer_app. reflexivity.
Qed.

Lemma length_answersInOrder (r : dns_Msg) (qs : list dns_Question) (w : World) :
  length (answersInOrder lib config records r qs w) = length qs.
Proof.
  revert w. induction qs as [|q qs IH]; intros w; simpl; [|rewrite IH];
    reflexivity.
Qed.

Lemma questionWorld_written (r : dns_Msg) (q : dns_Question) (w : World) :
  written (questionWorld lib config records r q w) = written w.
Proof.
  unfold questionWorld, handleQuestion.
  destruct (records !! strings.TrimSuffix (Name q) ".") as [record|].
  - destruct (newRecord lib q record) as [[rr|e]|]; reflexivity.
  - destruct (Enabled (Forwarding config)); [|reflexivity].
    pose proof (requestFromUpsreamServers_world r
                  (Servers (Forwarding config)) w) as [_ Hw].
    destruct (requestFromUpsreamServers lib r (Servers (Forwarding config)) w)
      as [[resp|e] w']; simpl in *; exact Hw.
Qed.

Lemma worldAfter_written (r : dns_Msg) (qs : list dns_Question) (w : World) :
  written (worldAfter lib config records r qs w) = written w.
Proof.
  revert w. induction qs as [|q qs IH]; intros w; [reflexivity|].
  simpl. rewrite IH. apply questionWorld_written.
Qed.

(** The handler writes one message, the reply header of the library with
    the contributions of the questions appended, whether it then returns
    or not. *)
Lemma handleDNSRequest_written (rw : ResponseWriter) (r : dns_Msg) (w : World) :
  written (world_of (handleDNSRequest lib config records rw r w))
  = written w
    ++ [append_Answer (SetReply lib Msg_zero r)
          (concat (answersInOrder lib config records r (Question r) w))].
Proof.
  unfold handleDNSRequest. rewrite handleQuestions_concat.
  destruct (Question r) as [|q0 qs] eqn:Hq; simpl;
    rewrite ?worldAfter_written, ?questionWorld_written; reflexivity.
Qed.

End Engine_facts.

(** ** The upstream forwarder *)

Section Forwarder_facts.

Variable lib : Library.

Lemma attempts_cons (w : World) (r : dns_Msg) (s : string)
    (servers : list string) (n : nat) :
  attempts (with_exchanged w (exchanged w ++ [(s, r)])) r servers n
  = attempts w r (s :: servers) (S n).
Proof. unfold attempts. simpl. rewrite <- app_assoc. reflexivity. Qed.

Lemma attempts_0 (w : World) (r : dns_Msg) (servers : list string) :
  attempts w r servers 0 = exchanged w.
Proof. unfold attempts. simpl. apply app_nil_r. Qed.

(** What one call of the forwarder does, by its result. *)
Lemma forwarder_outcome (r : dns_Msg) (servers : list string) (w : World) :
  match requestFromUpsreamServers lib r servers w with
  | (inl resp, w') =>
      exists (n : nat) (s : string),
        nth_error servers n = Some s
        /\ Exchange lib (attempts w r servers n) r s = inl resp
        /\ (forall i s', (i < n)%nat -> nth_error servers i = Some s' ->
              exists e, Exchange lib (attempts w r servers i) r s' = inr e)
        /\ w' = with_exchanged w (attempts w r servers (S n))
  | (inr e, w') =>
      (forall i s', nth_error servers i = Some s' ->
         exists e', Exchange lib (attempts w r servers i) r s' = inr e')
      /\ e = allUpstreamsFailed
      /\ w' = with_exchanged w (attempts w r servers (length servers))
  end.
Proof.
  revert w. induction servers as [|s servers IH]; intros w.
  - simpl. split; [|split].
    + intros i s' H. destruct i; discriminate.
    + reflexivity.
    + unfold with_exchanged. rewrite attempts_0. destruct w; reflexivity.
  - simpl. unfold do_Exchange.
    destruct (Exchange lib (exchanged w) r s) as [resp|e0] eqn:Hx.
    + exists 0%nat, s. rewrite attempts_0. repeat split; try assumption.
      intros i s' Hi. lia.
    + specialize (IH (with_exchanged w (exchanged w ++ [(s, r)]))).
      change {| exchanged := exchanged w ++ [(s, r)]; logged := logged w;
                written := written w |}
        with (with_exchanged w (exchanged w ++ [(s, r)])).
      destruct (requestFromUpsreamServers lib r servers
                  (with_exchanged w (exchanged w ++ [(s, r)])))
        as [[resp|e] w'].
      * destruct IH as (n & s1 & Hn & Hok & Hpre & Hw).
        exists (S n), s1. rewrite attempts_cons in Hok, Hw.
        repeat split; try assumption.
        intros [|i] s' Hi Hs'.
        -- simpl in Hs'. injection Hs' as <-. rewrite attempts_0. eauto.
        -- simpl in Hs'. rewrite <- attempts_cons. apply Hpre; [lia|exact Hs'].
      * destruct IH as (Hall & He & Hw). rewrite attempts_cons in Hw.
        repeat split; try assumption.
        intros [|i] s' Hs'.
        -- simpl in Hs'. injection Hs' as <-. rewrite attempts_0. eauto.
        -- simpl in Hs'. rewrite <- attempts_cons. apply Hall. exact Hs'.
Qed.

(** C2. The forwarder tries the upstream servers in the order of the list,
    once each.  It returns a response exactly when some server answers
    after all servers before it have failed at the transport level, and
    that response is the answer of this first server, whatever its status
    code; the exchanges made are those with the servers up to it.  It
    returns the error "failed to get response from upstream servers"
    exactly when every server of the list fails at the transport level,
    after one exchange with each. *)
Theorem forward_first_success (r : dns_Msg) (servers : list string) (w : World) :
  (forall (resp : dns_Msg) (w' : World),
     requestFromUpsreamServers lib r servers w = (inl resp, w')
     <-> exists (n : nat) (s : string),
           nth_error servers n = Some s
           /\ Exchange lib (attempts w r servers n) r s = inl resp
           /\ (forall i s', (i < n)%nat -> nth_error servers i = Some s' ->
                 exists e, Exchange lib (attempts w r servers i) r s' = inr e)
           /\ w' = with_exchanged w (attempts w r servers (S n)))
  /\ (forall (e : error) (w' : World),
        requestFromUpsreamServers lib r servers w = (inr e, w')
        <-> (forall i s', nth_error servers i = Some s' ->
               exists e', Exchange lib (attempts w r servers i) r s' = inr e')
            /\ e = allUpstreamsFailed
            /\ w' = with_exchanged w (attempts w r servers (length servers))).
Proof.
  pose proof (forwarder_outcome r servers w) as Hout.
  destruct (requestFromUpsreamServers lib r servers w) as [[resp0|e0] w0].
  - destruct Hout as (n0 & s0 & Hn0 & Hok0 & Hpre0 & Hw0).
    split.
    + intros resp w'. split.
      * intros H. injection H as <- <-. exists n0, s0. auto.
      * intros (n & s & Hn & Hok & Hpre & Hw).
        destruct (Nat.lt_trichotomy n n0) as [Hlt|[Heq|Hgt]].
        -- destruct (Hpre0 n s Hlt Hn) as [e He]. congruence.
        -- subst n. assert (s = s0) by congruence. subst s.
           assert (resp = resp0) by congruence. subst. reflexivity.
        -- destruct (Hpre n0 s0 Hgt Hn0) as [e He]. congruence.
    + intros e w'. split; [discriminate|].
      intros (Hall & _ & _). destruct (Hall n0 s0 Hn0) as [e' He']. congruence.
  - destruct Hout as (Hall0 & He0 & Hw0).
    split.
    + intros resp w'. split; [discriminate|].
      intros (n & s & Hn & Hok & _). destruct (Hall0 n s Hn) as [e' He'].
      congruence.
    + intros e w'. split.
      * intros H. injection H as <- <-. auto.
      * intros (_ & -> & ->). subst. reflexivity.
Qed.

End Forwarder_facts.

(** Two servers, the first out of reach and the second answering with a
    name error: the answer of the second is returned after one exchange
    with each; with both out of reach the forwarder fails. *)
Lemma forward_first_success_witness :
  requestFromUpsreamServers (Reference.library Examples.second_answers)
    (Examples.query [Examples.q_unknown]) ["8.8.8.8:53"; "8.8.4.4:53"]%string
    World_start
  = (inl Examples.response_nx,
     with_exchanged World_start
       [("8.8.8.8:53"%string, Examples.query [Examples.q_unknown]);
        ("8.8.4.4:53"%string, Examples.query [Examples.q_unknown])])
  /\ requestFromUpsreamServers (Reference.library Reference.offline)
       (Examples.query [Examples.q_unknown]) ["8.8.8.8:53"; "8.8.4.4:53"]%string
       World_start
     = (inr allUpstreamsFailed,
        with_exchanged World_start
          [("8.8.8.8:53"%string, Examples.query [Examples.q_unknown]);
           ("8.8.4.4:53"%string, Examples.query [Examples.q_unknown])]).
Proof.
  split.
  - apply (proj1 (forward_first_success
                    (Reference.library Examples.second_answers)
                    (Examples.query [Examples.q_unknown])
                    ["8.8.8.8:53"; "8.8.4.4:53"]%string World_start)).
    exists 1%nat, "8.8.4.4:53"%string.
    split; [reflexivity|]. split; [reflexivity|]. split; [|reflexivity].
    intros [|i] s' Hi Hs'; [|lia].
    injection Hs' as <-. eexists. reflexivity.
  - apply (proj2 (forward_first_success
                    (Reference.library Reference.offline)
                    (Examples.query [Examples.q_unknown])
                    ["8.8.8.8:53"; "8.8.4.4:53"]%string World_start)).
    split; [|split; reflexivity].
    intros i s' _. eexists. reflexivity.
Defined.

(** ** The reference library meets the contracts *)


Lemma Reference_SetReply_copies (up : string -> dns_Msg + error) :
  SetReply_copies (Reference.library up).
Proof. intros msg request. repeat split. Qed.

(** ** The construction of the answer record *)

Section Synthesis_facts.

Variable lib : Library.
Variable config : Config.
Variable records : Records.




Lemma newRecord_unsupported (q : dns_Question) (record : Record_) :
  ~ In (Type_ record) supported -> newRecord lib q record = None.
Proof.
  intros Hn. unfold newRecord.
  repeat match goal with
  | |- context [String.eqb (Type_ record) ?m] =>
      destruct (String.eqb_spec (Type_ record) m) as [He|_];
      [exfalso; apply Hn; rewrite He; unfold supported; simpl; tauto|]
  end.
  reflexivity.
Qed.

Lemma newRecord_supported (q : dns_Question) (record : Record_) :
  In (Type_ record) supported -> newRecord lib q record <> None.
Proof.
  unfold supported. simpl.
  intros [H|[H|[H|[H|[H|[H|[H|[H|[]]]]]]]]]; unfold newRecord; rewrite <- H;
    discriminate.
Qed.


End Synthesis_facts.

(** ** Questions that contribute nothing *)

Section Skipping_facts.

Variable lib : Library.
Variable config : Config.
Variable records : Records.

Lemma answersInOrder_app (r : dns_Msg) (qs1 qs2 : list dns_Question)
    (w : World) :
  answersInOrder lib config records r (qs1 ++ qs2) w
  = answersInOrder lib config records r qs1 w
    ++ answersInOrder lib config records r qs2
         (worldAfter lib config records r qs1 w).
Proof.
  revert w. induction qs1 as [|q qs1 IH]; intros w; [reflexivity|].
  simpl. rewrite IH. reflexivity.
Qed.

(** The answers of a query around one question that contributes nothing. *)
Lemma answers_around (r : dns_Msg) (qs1 qs2 : list dns_Question)
    (q : dns_Question) (w : World) :
  questionAnswers lib config records r q
    (worldAfter lib config records r qs1 w) = [] ->
  concat (answersInOrder lib config records r (qs1 ++ q :: qs2) w)
  = concat (answersInOrder lib config records r qs1 w)
    ++ concat (answersInOrder lib config records r qs2
                 (questionWorld lib config records r q
                    (worldAfter lib config records r qs1 w))).
Proof.
  intros Hq. rewrite answersInOrder_app, concat_app. simpl. rewrite Hq.
  reflexivity.
Qed.

Lemma failure_no_answer (r : dns_Msg) (q : dns_Question) (w : World)
    (f : Failure) :
  failure lib config records r q w = Some f ->
  questionAnswers lib config records r q w = [].
Proof.
  unfold failure, questionAnswers, handleQuestion.
  destruct (records !! strings.TrimSuffix (Name q) ".") as [record|].
  - destruct (newRecord lib q record) as [[rr|e]|]; [discriminate| |];
      reflexivity.
  - destruct (Enabled (Forwarding config)); [|discriminate].
    destruct (requestFromUpsreamServers lib r (Servers (Forwarding config)) w)
      as [[resp|e] w']; [discriminate|reflexivity].
Qed.

(** The three failures, by what causes them: a stored descriptor of a type
    outside the supported ones; a stored descriptor of a supported type
    whose text the library refuses; no descriptor, forwarding enabled, and
    an error from the forwarder. *)
Lemma failure_cases (r : dns_Msg) (q : dns_Question) (w : World) :
  (failure lib config records r q w = Some UnsupportedRecordType
   <-> exists record,
         records !! strings.TrimSuffix (Name q) "." = Some record
         /\ ~ In (Type_ record) supported)
  /\ (failure lib config records r q w = Some MalformedRecordData
      <-> exists record e,
            records !! strings.TrimSuffix (Name q) "." = Some record
            /\ In (Type_ record) supported
            /\ newRecord lib q record = Some (inr e))
  /\ (failure lib config records r q w = Some AllUpstreamsFailed
      <-> records !! strings.TrimSuffix (Name q) "." = None
          /\ Enabled (Forwarding config) = true
          /\ exists e w',
               requestFromUpsreamServers lib r (Servers (Forwarding config)) w
               = (inr e, w')).
Proof.
  unfold failure.
  destruct (records !! strings.TrimSuffix (Name q) ".") as [record|] eqn:Hl.
  - destruct (in_dec String.string_dec (Type_ record) supported) as [Hin|Hout].
    + pose proof (newRecord_supported lib q record Hin) as Hsome.
      destruct (newRecord lib q record) as [[rr|e]|] eqn:Hn; [| |congruence].
      * split; [|split]; (split; [discriminate|]).
        -- intros (rec' & Hr & Ht). injection Hr as <-. tauto.
        -- intros (rec' & e & Hr & _ & He). injection Hr as <-. congruence.
        -- intros (Hr & _). discriminate.
      * split; [|split].
        -- split; [discriminate|].
           intros (rec' & Hr & Ht). injection Hr as <-. tauto.
        -- split; [intros _; eauto|reflexivity].
        -- split; [discriminate|]. intros (Hr & _). discriminate.
    + rewrite (newRecord_unsupported lib q record Hout).
      split; [|split].
      * split; [intros _; eauto|reflexivity].
      * split; [discriminate|].
        intros (rec' & e & Hr & Ht & _). injection Hr as <-. tauto.
      * split; [discriminate|]. intros (Hr & _). discriminate.
  - split; [|split].
    + split; [|intros (rec' & Hr & _); discriminate].
      destruct (Enabled (Forwarding config)); [|discriminate].
      destruct (fst _); discriminate.
    + split; [|intros (rec' & e & Hr & _); discriminate].
      destruct (Enabled (Forwarding config)); [|discriminate].
      destruct (fst _); discriminate.
    + destruct (Enabled (Forwarding config)).
      * destruct (requestFromUpsreamServers lib r
                    (Servers (Forwarding config)) w) as [[resp|e] w'] eqn:Hf;
          simpl.
        -- split; [discriminate|].
           intros (_ & _ & e & w2 & H). discriminate.
        -- split; [intros _; eauto|reflexivity].
      * split; [discriminate|]. intros (_ & H & _). discriminate.
Qed.

Lemma miss_disabled (r msg : dns_Msg) (w : World) (q : dns_Question) :
  Enabled (Forwarding config) = false ->
  records !! strings.TrimSuffix (Name q) "." = None ->
  handleQuestion lib config records r (msg, w) q = (msg, w).
Proof. intros He Hl. unfold handleQuestion. rewrite Hl, He. reflexivity. Qed.

Lemma unsupported_step (r msg : dns_Msg) (w : World) (q : dns_Question)
    (record : Record_) :
  records !! strings.TrimSuffix (Name q) "." = Some record ->
  ~ In (Type_ record) supported ->
  handleQuestion lib config records r (msg, w) q
  = (msg, log_Print ("Unsupported record type: " +:+ Type_ record) w).
Proof.
  intros Hl Ht. unfold handleQuestion.
  rewrite Hl, (newRecord_unsupported lib q record Ht), Sprintf_unsupported.
  reflexivity.
Qed.

End Skipping_facts.

(** C4. Whatever the query, the handler writes one reply, without error
    code, whose answer section is the concatenation of what the questions
    contribute.  A question that fails, by an unsupported record type, by
    a record the library refuses or by the failure of every upstream
    server, contributes nothing, and the questions after it contribute as
    they do in the world it leaves. *)
Theorem failures_not_fatal (lib : Library) (config : Config)
    (records : Records) (rw : ResponseWriter) (r : dns_Msg) (w : World) :
  SetReply_copies lib ->
  exists reply : dns_Msg,
    written (world_of (handleDNSRequest lib config records rw r w))
      = written w ++ [reply]
    /\ Rcode reply = RcodeSuccess
    /\ Answer reply
       = concat (answersInOrder lib config records r (Question r) w)
    /\ forall (qs1 qs2 : list dns_Question) (q : dns_Question) (f : Failure),
         Question r = qs1 ++ q :: qs2 ->
         failure lib config records r q
           (worldAfter lib config records r qs1 w) = Some f ->
         questionAnswers lib config records r q
           (worldAfter lib config records r qs1 w) = []
         /\ Answer reply
            = concat (answersInOrder lib config records r qs1 w)
              ++ concat (answersInOrder lib config records r qs2
                           (questionWorld lib config records r q
                              (worldAfter lib config records r qs1 w))).
Proof.
  intros Hc. destruct (Hc Msg_zero r) as (_ & _ & Hrc & Han).
  eexists. split; [apply handleDNSRequest_written|].
  split; [exact Hrc|]. simpl. rewrite Han. simpl. split; [reflexivity|].
  intros qs1 qs2 q f Hqs Hf.
  pose proof (failure_no_answer lib config records r q _ f Hf) as Hno.
  split; [exact Hno|]. rewrite Hqs. apply answers_around, Hno.
Qed.

(** A query with a record of unknown type, a record the library refuses, a
    name no upstream server can be asked about, and "test.com.": the reply
    is written, without error code, with the one answer for "test.com.". *)
Lemma failures_not_fatal_witness :
  exists reply : dns_Msg,
    written (world_of (handleDNSRequest (Reference.library Reference.offline)
                         Examples.config_on Examples.records Examples.rw
                         (Examples.query [Examples.q_old; Examples.q_bad;
                                          Examples.q_unknown; Examples.q_test])
                         World_start))
      = [reply]
    /\ Rcode reply = RcodeSuccess
    /\ Answer reply
       = [{| Header := {| Hdr_Name := "test.com."; Rrtype := "A";
                          Class := "IN"; Ttl := 600 |};
             Rdata := "127.0.0.1" |}].
Proof.
  destruct (failures_not_fatal (Reference.library Reference.offline)
              Examples.config_on Examples.records Examples.rw
              (Examples.query [Examples.q_old; Examples.q_bad;
                               Examples.q_unknown; Examples.q_test])
              World_start (Reference_SetReply_copies Reference.offline))
    as (reply & Hw & Hr & Ha & _).
  exists reply. split; [exact Hw|]. split; [exact Hr|].
  rewrite Ha. vm_compute. reflexivity.
Defined.

(** C5. With forwarding disabled, a question whose name is not in the
    record store leaves the reply and the world as they are: no answer is
    appended for it, and nothing is exchanged or logged.  The reply of the
    handler is still written, with the identifier of the query and marked
    as a response; in a query the question contributes nothing between the
    answers of the questions before and after it. *)
Theorem miss_without_forwarding (lib : Library) (config : Config)
    (records : Records) :
  SetReply_copies lib ->
  Enabled (Forwarding config) = false ->
  (forall (r msg : dns_Msg) (w : World) (q : dns_Question),
     records !! strings.TrimSuffix (Name q) "." = None ->
     handleQuestion lib config records r (msg, w) q = (msg, w))
  /\ (forall (rw : ResponseWriter) (r : dns_Msg) (w : World),
        exists reply : dns_Msg,
          written (world_of (handleDNSRequest lib config records rw r w))
            = written w ++ [reply]
          /\ Id reply = Id r
          /\ Response reply = true
          /\ forall (qs1 qs2 : list dns_Question) (q : dns_Question),
               Question r = qs1 ++ q :: qs2 ->
               records !! strings.TrimSuffix (Name q) "." = None ->
               Answer reply
               = concat (answersInOrder lib config records r qs1 w)
                 ++ concat (answersInOrder lib config records r qs2
                              (worldAfter lib config records r qs1 w))).
Proof.
  intros Hc He. split.
  - intros r msg w q Hl. apply miss_disabled; assumption.
  - intros rw r w. destruct (Hc Msg_zero r) as (Hid & Hre & _ & Han).
    eexists. split; [apply handleDNSRequest_written|].
    split; [exact Hid|]. split; [exact Hre|].
    intros qs1 qs2 q Hqs Hl. simpl. rewrite Han, Hqs. simpl.
    assert (Hq : forall w', handleQuestion lib config records r (Msg_zero, w') q
                            = (Msg_zero, w'))
      by (intros w'; apply miss_disabled; assumption).
    rewrite answers_around.
    + unfold questionWorld. rewrite Hq. reflexivity.
    + unfold questionAnswers. rewrite Hq. reflexivity.
Qed.

(** The question "unknown.test.com." with forwarding disabled: a reply
    with the identifier of the query, marked as a response, without
    answers. *)
Lemma miss_without_forwarding_witness :
  handleQuestion (Reference.library Reference.offline) Examples.config_off
    Examples.records (Examples.query [Examples.q_unknown])
    (Msg_zero, World_start) Examples.q_unknown
  = (Msg_zero, World_start)
  /\ exists reply : dns_Msg,
       written (world_of (handleDNSRequest (Reference.library Reference.offline)
                            Examples.config_off Examples.records Examples.rw
                            (Examples.query [Examples.q_unknown]) World_start))
         = [reply]
       /\ Id reply = 4242 /\ Response reply = true /\ Answer reply = [].
Proof.
  destruct (miss_without_forwarding (Reference.library Reference.offline)
              Examples.config_off Examples.records
              (Reference_SetReply_copies Reference.offline) eq_refl)
    as [Hq Hr].
  split.
  - apply Hq. vm_compute. reflexivity.
  - destruct (Hr Examples.rw (Examples.query [Examples.q_unknown]) World_start)
      as (reply & Hw & Hid & Hre & Han).
    exists reply. split; [exact Hw|]. split; [exact Hid|]. split; [exact Hre|].
    rewrite (Han [] [] Examples.q_unknown eq_refl); [reflexivity|].
    vm_compute. reflexivity.
Defined.

Lemma nth_error_answersInOrder (lib : Library) (config : Config)
    (records : Records) (r : dns_Msg) (qs : list dns_Question) (w : World)
    (i : nat) (q : dns_Question) :
  nth_error qs i = Some q ->
  nth_error (answersInOrder lib config records r qs w) i
  = Some (questionAnswers lib config records r q
            (worldAfter lib config records r (firstn i qs) w)).
Proof.
  revert w i. induction qs as [|q0 qs IH]; intros w i Hi.
  - destruct i; discriminate.
  - destruct i as [|i]; simpl in *.
    + injection Hi as ->. reflexivity.
    + apply IH, Hi.
Qed.

(** C8. The questions of a query are handled one after the other; what one
    question appends does not depend on the answers already in the reply;
    and the answer section of the reply written is the concatenation, in
    the order of the questions, of one contribution per question, the
    i-th being that of the i-th question in the world left by the
    questions before it. *)
Theorem answers_in_question_order (lib : Library) (config : Config)
    (records : Records) (rw : ResponseWriter) (r : dns_Msg) (w : World) :
  SetReply_copies lib ->
  (forall (msg : dns_Msg) (w' : World) (q : dns_Question),
     handleQuestion lib config records r (msg, w') q
     = (append_Answer msg (questionAnswers lib config records r q w'),
        questionWorld lib config records r q w'))
  /\ exists reply : dns_Msg,
       written (world_of (handleDNSRequest lib config records rw r w))
         = written w ++ [reply]
       /\ Answer reply
          = concat (answersInOrder lib config records r (Question r) w)
       /\ length (answersInOrder lib config records r (Question r) w)
          = length (Question r)
       /\ forall (i : nat) (q : dns_Question),
            nth_error (Question r) i = Some q ->
            nth_error (answersInOrder lib config records r (Question r) w) i
            = Some (questionAnswers lib config records r q
                      (worldAfter lib config records r
                         (firstn i (Question r)) w)).
Proof.
  intros Hc. split; [intros; apply handleQuestion_appends|].
  destruct (Hc Msg_zero r) as (_ & _ & _ & Han).
  eexists. split; [apply handleDNSRequest_written|].
  split; [simpl; rewrite Han; reflexivity|].
  split; [apply length_answersInOrder|].
  intros i q. apply nth_error_answersInOrder.
Qed.

(** A forwarded question, a local A record, another forwarded question and
    a local MX record: the answer section holds the upstream answers, the
    A record, the upstream answers again and the MX record, in this
    order. *)
Lemma answers_in_question_order_witness :
  exists reply : dns_Msg,
    written (world_of (handleDNSRequest
                         (Reference.library Examples.first_answers)
                         Examples.config_on Examples.records Examples.rw
                         (Examples.query [Examples.q_unknown; Examples.q_test;
                                          Examples.q_other; Examples.q_mail])
                         World_start))
      = [reply]
    /\ map (fun a => (Hdr_Name (Header a), Rrtype (Header a))) (Answer reply)
       = [("unknown.test.com.", "A"); ("other.example.org.", "A");
          ("test.com.", "A");
          ("unknown.test.com.", "A"); ("other.example.org.", "A");
          ("mail.test.com.", "MX")]%string.
Proof.
  destruct (answers_in_question_order
              (Reference.library Examples.first_answers)
              Examples.config_on Examples.records Examples.rw
              (Examples.query [Examples.q_unknown; Examples.q_test;
                               Examples.q_other; Examples.q_mail])
              World_start (Reference_SetReply_copies Examples.first_answers))
    as (_ & reply & Hw & Ha & _).
  exists reply. split; [exact Hw|]. rewrite Ha. vm_compute. reflexivity.
Defined.

(** C9. After writing the reply the handler formats its log line from the
    first question of the query.  With a question it returns, the line
    "query: <name of the first question> from: <peer address>" being the
    last thing logged, after the reply has been written; with an empty
    question section the index is out of range and the handler panics,
    the reply already written.  It panics in no other case. *)
Theorem log_line_reads_first_question (lib : Library) (config : Config)
    (records : Records) (rw : ResponseWriter) (r : dns_Msg) (w : World) :
  let reply :=
    append_Answer (SetReply lib Msg_zero r)
      (concat (answersInOrder lib config records r (Question r) w)) in
  (Question r = [] ->
   handleDNSRequest lib config records rw r w
   = Panicked "index out of range [0] with length 0" (WriteMsg reply w))
  /\ (forall (q0 : dns_Question) (qs : list dns_Question),
        Question r = q0 :: qs ->
        handleDNSRequest lib config records rw r w
        = Returned
            (log_Print ("query: " +:+ Name q0 +:+ " from: " +:+ RemoteAddr rw)
               (WriteMsg reply
                  (worldAfter lib config records r (Question r) w))))
  /\ ((exists (reason : string) (w' : World),
         handleDNSRequest lib config records rw r w = Panicked reason w')
      <-> Question r = []).
Proof.
  intros reply. subst reply. unfold handleDNSRequest.
  rewrite handleQuestions_concat.
  destruct (Question r) as [|q0 qs] eqn:Hq.
  - split; [reflexivity|]. split; [discriminate|].
    split; [reflexivity|]. intros _. eauto.
  - split; [discriminate|]. split.
    + intros q0' qs' H. injection H as <- <-. rewrite Sprintf_query.
      reflexivity.
    + split; [|discriminate]. intros (reason & w' & H). discriminate H.
Qed.

(** A query without questions: the reply is written and the handler
    panics.  A query for "test.com.": the handler returns after logging
    the name and the peer. *)
Lemma log_line_reads_first_question_witness :
  handleDNSRequest (Reference.library Reference.offline) Examples.config_on
    Examples.records Examples.rw (Examples.query []) World_start
  = Panicked "index out of range [0] with length 0"
      {| exchanged := []; logged := [];
         written := [{| Id := 4242; Response := true; Rcode := RcodeSuccess;
                        Question := []; Answer := [] |}] |}
  /\ exists w' : World,
       handleDNSRequest (Reference.library Reference.offline)
         Examples.config_on Examples.records Examples.rw
         (Examples.query [Examples.q_test]) World_start
       = Returned w'
       /\ logged w' = ["query: test.com. from: 192.0.2.7:53000"%string].
Proof.
  split.
  - rewrite (proj1 (log_line_reads_first_question
                      (Reference.library Reference.offline) Examples.config_on
                      Examples.records Examples.rw (Examples.query [])
                      World_start) eq_refl).
    reflexivity.
  - eexists. split.
    + apply (proj1 (proj2 (log_line_reads_first_question
                      (Reference.library Reference.offline) Examples.config_on
                      Examples.records Examples.rw
                      (Examples.query [Examples.q_test]) World_start))
               Examples.q_test [] eq_refl).
    + vm_compute. reflexivity.
Defined.

(** ** Forwarding, once per question that misses the store *)

Section Forwarding_facts.

Variable lib : Library.
Variable config : Config.
Variable records : Records.

Lemma miss_enabled (r msg : dns_Msg) (w : World) (q : dns_Question) :
  Enabled (Forwarding config) = true ->
  records !! strings.TrimSuffix (Name q) "." = None ->
  handleQuestion lib config records r (msg, w) q
  = match requestFromUpsreamServers lib r (Servers (Forwarding config)) w with
    | (inl resp, w') => (append_Answer msg (Answer resp), w')
    | (inr e, w') => (msg, log_Print e w')
    end.
Proof.
  intros He Hl. unfold handleQuestion. rewrite Hl, He.
  destruct (requestFromUpsreamServers lib r (Servers (Forwarding config)) w)
    as [[resp|e] w']; reflexivity.
Qed.

(** A hit is answered from the store alone: the same answers in any world,
    and no exchange. *)
Lemma hit_local (r : dns_Msg) (q : dns_Question) (w w0 : World) :
  misses records q = false ->
  questionAnswers lib config records r q w
  = questionAnswers lib config records r q w0
  /\ exchanged (questionWorld lib config records r q w) = exchanged w.
Proof.
  unfold misses, questionAnswers, questionWorld, handleQuestion.
  destruct (records !! strings.TrimSuffix (Name q) ".") as [record|];
    [intros _|discriminate].
  destruct (newRecord lib q record) as [[rr|e]|]; split; reflexivity.
Qed.

Section Upstream_answers.

Variable r : dns_Msg.
Variable s : string.
Variable rest : list string.
Variable resp : dns_Msg.
Hypothesis Henabled : Enabled (Forwarding config) = true.
Hypothesis Hservers : Servers (Forwarding config) = s :: rest.
Hypothesis Hanswers : forall past, Exchange lib past r s = inl resp.

Lemma miss_forwarded (w : World) (q : dns_Question) :
  misses records q = true ->
  questionAnswers lib config records r q w = Answer resp
  /\ questionWorld lib config records r q w
     = with_exchanged w (exchanged w ++ [(s, r)]).
Proof.
  unfold misses, questionAnswers, questionWorld.
  destruct (records !! strings.TrimSuffix (Name q) ".") as [record|] eqn:Hl;
    [discriminate|intros _].
  rewrite (miss_enabled r Msg_zero w q Henabled Hl), Hservers.
  simpl. unfold do_Exchange. rewrite Hanswers. split; reflexivity.
Qed.

Lemma forwarded_answers (w0 : World) (qs : list dns_Question) (w : World) :
  concat (answersInOrder lib config records r qs w)
  = flat_map (fun q => if misses records q then Answer resp
                       else questionAnswers lib config records r q w0) qs
  /\ exchanged (worldAfter lib config records r qs w)
     = exchanged w
       ++ repeat (s, r) (length (List.filter (misses records) qs)).
Proof.
  revert w. induction qs as [|q qs IH]; intros w.
  - simpl. rewrite app_nil_r. split; reflexivity.
  - simpl. destruct (misses records q) eqn:Hm.
    + destruct (miss_forwarded w q Hm) as [Ha Hw].
      destruct (IH (questionWorld lib config records r q w)) as [IHa IHw].
      rewrite Ha, IHa, IHw, Hw. simpl. rewrite <- app_assoc.
      split; reflexivity.
    + destruct (hit_local r q w w0 Hm) as [Ha Hw].
      destruct (IH (questionWorld lib config records r q w)) as [IHa IHw].
      rewrite Ha, IHa, IHw, Hw. split; reflexivity.
Qed.

End Upstream_answers.

Lemma handleDNSRequest_exchanged (rw : ResponseWriter) (r : dns_Msg)
    (w : World) :
  exchanged (world_of (handleDNSRequest lib config records rw r w))
  = exchanged (worldAfter lib config records r (Question r) w).
Proof.
  unfold handleDNSRequest. rewrite handleQuestions_concat.
  destruct (Question r); reflexivity.
Qed.

End Forwarding_facts.

(** C10. With forwarding enabled, a question that misses the store makes
    the handler call the forwarder with the query as it came in, all its
    questions included, and append the whole answer section of the
    response.  Hence, when the first upstream server answers every
    exchange with the same response, a query causes one exchange of the
    whole query per question that misses, and the answer section of that
    response appears in the reply once per such question, in the place of
    the question. *)
Theorem forwarding_repeats_per_miss (lib : Library) (config : Config)
    (records : Records) :
  Enabled (Forwarding config) = true ->
  (forall (r msg : dns_Msg) (w : World) (q : dns_Question),
     records !! strings.TrimSuffix (Name q) "." = None ->
     handleQuestion lib config records r (msg, w) q
     = match requestFromUpsreamServers lib r
               (Servers (Forwarding config)) w with
       | (inl resp, w') => (append_Answer msg (Answer resp), w')
       | (inr e, w') => (msg, log_Print e w')
       end)
  /\ (forall (s : string) (rest : list string) (resp r : dns_Msg)
             (rw : ResponseWriter) (w : World),
        Servers (Forwarding config) = s :: rest ->
        (forall past, Exchange lib past r s = inl resp) ->
        exchanged (world_of (handleDNSRequest lib config records rw r w))
        = exchanged w
          ++ repeat (s, r)
               (length (List.filter (misses records) (Question r)))
        /\ written (world_of (handleDNSRequest lib config records rw r w))
           = written w
             ++ [append_Answer (SetReply lib Msg_zero r)
                   (flat_map
                      (fun q => if misses records q then Answer resp
                                else questionAnswers lib config records r q w)
                      (Question r))]).
Proof.
  intros He. split.
  - intros r msg w q Hl. apply miss_enabled; assumption.
  - intros s rest resp r rw w Hs Hx.
    destruct (forwarded_answers lib config records r s rest resp He Hs Hx
                w (Question r) w) as [Ha Hw].
    split.
    + rewrite handleDNSRequest_exchanged. exact Hw.
    + rewrite handleDNSRequest_written, Ha. reflexivity.
Qed.

(** Two questions that miss the store, around one that hits it, with the
    first default server answering: the whole query is sent to that server
    twice, and its two answers are in the reply twice. *)
Lemma forwarding_repeats_per_miss_witness :
  exchanged (world_of (handleDNSRequest
                         (Reference.library Examples.first_answers)
                         Examples.config_on Examples.records Examples.rw
                         (Examples.query [Examples.q_unknown; Examples.q_test;
                                          Examples.q_other])
                         World_start))
  = [("8.8.8.8:53"%string,
      Examples.query [Examples.q_unknown; Examples.q_test; Examples.q_other]);
     ("8.8.8.8:53"%string,
      Examples.query [Examples.q_unknown; Examples.q_test; Examples.q_other])]
  /\ exists reply : dns_Msg,
       written (world_of (handleDNSRequest
                            (Reference.library Examples.first_answers)
                            Examples.config_on Examples.records Examples.rw
                            (Examples.query [Examples.q_unknown;
                                             Examples.q_test;
                                             Examples.q_other])
                            World_start))
       = [reply]
       /\ map Rdata (Answer reply)
          = ["203.0.113.1"; "203.0.113.2"; "127.0.0.1";
             "203.0.113.1"; "203.0.113.2"]%string.
Proof.
  destruct (forwarding_repeats_per_miss
              (Reference.library Examples.first_answers)
              Examples.config_on Examples.records eq_refl) as [_ H].
  destruct (H "8.8.8.8:53"%string ["8.8.4.4:53"%string] Examples.response_up
              (Examples.query [Examples.q_unknown; Examples.q_test;
                               Examples.q_other])
              Examples.rw World_start eq_refl (fun _ => eq_refl))
    as [Hx Hw].
  split.
  - rewrite Hx. vm_compute. reflexivity.
  - eexists. split; [exact Hw|]. vm_compute. reflexivity.
Defined.

(** ** Further properties of the handler and of the forwarder *)

Section Locality_facts.

Variable lib : Library.
Variable records : Records.

(** A question found in the store is answered from the store alone:
    neither the forwarding settings, nor the query around it, nor the
    world matter, and the world only gains log lines. *)
Lemma hit_independent (config config' : Config) (r r' : dns_Msg)
    (q : dns_Question) (w w' : World) :
  misses records q = false ->
  questionAnswers lib config records r q w
  = questionAnswers lib config' records r' q w'
  /\ (length (questionAnswers lib config records r q w) <= 1)%nat
  /\ exchanged (questionWorld lib config records r q w) = exchanged w.
Proof.
  unfold misses, questionAnswers, questionWorld, handleQuestion.
  destruct (records !! strings.TrimSuffix (Name q) ".") as [record|];
    [intros _|discriminate].
  destruct (newRecord lib q record) as [[rr|e]|]; simpl; repeat split; lia.
Qed.

Lemma miss_no_forwarding (config : Config) (r : dns_Msg) (q : dns_Question)
    (w : World) :
  Enabled (Forwarding config) = false ->
  misses records q = true ->
  questionAnswers lib config records r q w = []
  /\ questionWorld lib config records r q w = w.
Proof.
  unfold misses, questionAnswers, questionWorld, handleQuestion.
  destruct (records !! strings.TrimSuffix (Name q) ".") as [record|];
    [discriminate|intros -> _]. split; reflexivity.
Qed.

(** Contributions that do not depend on the world can be computed
    question by question. *)
Lemma answers_pointwise (config config' : Config) (r r' : dns_Msg)
    (qs : list dns_Question) :
  (forall q w w', In q qs ->
     questionAnswers lib config records r q w
     = questionAnswers lib config' records r' q w') ->
  forall w w',
    answersInOrder lib config records r qs w
    = answersInOrder lib config' records r' qs w'.
Proof.
  induction qs as [|q qs IH]; intros H w w'; [reflexivity|].
  simpl. rewrite (H q w w') by (left; reflexivity).
  f_equal. apply IH. intros q0 w0 w0' Hq. apply H. right. exact Hq.
Qed.

Lemma answers_as_map (config : Config) (r : dns_Msg)
    (qs : list dns_Question) (w0 : World) :
  (forall q w w', In q qs ->
     questionAnswers lib config records r q w
     = questionAnswers lib config records r q w') ->
  forall w,
    answersInOrder lib config records r qs w
    = map (fun q => questionAnswers lib config records r q w0) qs.
Proof.
  induction qs as [|q qs IH]; intros H w; [reflexivity|].
  simpl. rewrite (H q w w0) by (left; reflexivity).
  f_equal. apply IH. intros q0 w1 w1' Hq. apply H. right. exact Hq.
Qed.

Lemma no_forwarding_local (config : Config) (r r' : dns_Msg)
    (q : dns_Question) (w w' : World) :
  Enabled (Forwarding config) = false ->
  questionAnswers lib config records r q w
  = questionAnswers lib config records r' q w'
  /\ (length (questionAnswers lib config records r q w) <= 1)%nat
  /\ exchanged (questionWorld lib config records r q w) = exchanged w.
Proof.
  intros He. destruct (misses records q) eqn:Hm.
  - destruct (miss_no_forwarding config r q w He Hm) as [-> ->].
    destruct (miss_no_forwarding config r' q w' He Hm) as [-> _].
    simpl. repeat split. lia.
  - apply hit_independent, Hm.
Qed.

Lemma no_forwarding_exchanged (config : Config) (r : dns_Msg)
    (qs : list dns_Question) (w : World) :
  Enabled (Forwarding config) = false ->
  exchanged (worldAfter lib config records r qs w) = exchanged w.
Proof.
  intros He. revert w. induction qs as [|q qs IH]; intros w; [reflexivity|].
  simpl. rewrite IH.
  apply (no_forwarding_local config r r q w w He).
Qed.

Lemma length_concat_le (ls : list (list dns_RR)) :
  Forall (fun l => (length l <= 1)%nat) ls ->
  (length (concat ls) <= length ls)%nat.
Proof.
  induction 1 as [|l ls Hl _ IH]; simpl; [lia|].
  rewrite length_app. lia.
Qed.

End Locality_facts.

Lemma reply_of_handleDNSRequest (lib : Library) (config : Config)
    (records : Records) (rw : ResponseWriter) (r : dns_Msg) (w : World) :
  reply_of (handleDNSRequest lib config records rw r w)
  = Some (append_Answer (SetReply lib Msg_zero r)
            (concat (answersInOrder lib config records r (Question r) w))).
Proof.
  unfold reply_of. rewrite handleDNSRequest_written. apply last_snoc.
Qed.

(** With forwarding off the answers of the reply are the local answers of
    the questions, whatever the world. *)
Lemma no_forwarding_reply (lib : Library) (config : Config)
    (records : Records) (rw : ResponseWriter) (r : dns_Msg) (w : World) :
  SetReply_copies lib ->
  Enabled (Forwarding config) = false ->
  exists reply : dns_Msg,
    reply_of (handleDNSRequest lib config records rw r w) = Some reply
    /\ Answer reply
       = flat_map (fun q => questionAnswers lib config records Msg_zero q
                              World_start) (Question r).
Proof.
  intros Hc He. eexists. split; [apply reply_of_handleDNSRequest|].
  destruct (Hc Msg_zero r) as (_ & _ & _ & Han). simpl. rewrite Han. simpl.
  rewrite flat_map_concat_map. f_equal.
  rewrite (answers_as_map lib records config r (Question r) World_start).
  - apply map_ext. intros q.
    apply (no_forwarding_local lib records config r Msg_zero q
             World_start World_start He).
  - intros q w1 w2 _.
    apply (no_forwarding_local lib records config r r q w1 w2 He).
Qed.

Lemma questionAnswers_by_name (lib : Library) (config : Config)
    (records : Records) (r : dns_Msg) (w : World) (q q' : dns_Question) :
  Name q = Name q' ->
  questionAnswers lib config records r q w
  = questionAnswers lib config records r q' w.
Proof.
  intros Hn. unfold questionAnswers, handleQuestion, newRecord.
  rewrite Hn. reflexivity.
Qed.

(** X1. The handler never looks at the type or the class of a question:
    two questions with the same name are handled alike, so a name
    configured with an A record is answered with that record whatever type
    is asked for.  With forwarding off, two queries whose questions have
    the same names in the same order get the same answer section. *)
Theorem question_type_ignored (lib : Library) (config : Config)
    (records : Records) :
  (forall (r : dns_Msg) (st : dns_Msg * World) (name : string)
          (qtype qclass qtype' qclass' : Z),
     handleQuestion lib config records r st (mkQuestion name qtype qclass)
     = handleQuestion lib config records r st (mkQuestion name qtype' qclass'))
  /\ (SetReply_copies lib ->
      Enabled (Forwarding config) = false ->
      forall (rw rw' : ResponseWriter) (r r' : dns_Msg) (w w' : World),
        map Name (Question r) = map Name (Question r') ->
        Answer <$> reply_of (handleDNSRequest lib config records rw r w)
        = Answer <$> reply_of (handleDNSRequest lib config records rw' r' w')).
Proof.
  split.
  - intros r [msg w] name qtype qclass qtype' qclass'. reflexivity.
  - intros Hc He rw rw' r r' w w' Hnames.
    destruct (no_forwarding_reply lib config records rw r w Hc He)
      as (reply & -> & Ha).
    destruct (no_forwarding_reply lib config records rw' r' w' Hc He)
      as (reply' & -> & Ha').
    simpl. f_equal. rewrite Ha, Ha'. clear Ha Ha'.
    revert Hnames. generalize (Question r') as qs'.
    induction (Question r) as [|q qs IH]; intros [|q' qs'] Hnames;
      try discriminate; [reflexivity|].
    simpl in Hnames. injection Hnames as Hn Hrest. simpl.
    rewrite (IH qs' Hrest). f_equal.
    apply questionAnswers_by_name, Hn.
Qed.

(** "test.com." asked with type A and class IN, and with type AAAA and
    class CH: the same record is appended; and the replies to the two
    queries carry the same answers. *)
Lemma question_type_ignored_witness :
  handleQuestion (Reference.library Reference.offline) Examples.config_off
    Examples.records (Examples.query []) (Msg_zero, World_start)
    (mkQuestion "test.com." 1 1)
  = handleQuestion (Reference.library Reference.offline) Examples.config_off
      Examples.records (Examples.query []) (Msg_zero, World_start)
      (mkQuestion "test.com." 28 3)
  /\ Answer <$> reply_of
       (handleDNSRequest (Reference.library Reference.offline)
          Examples.config_off Examples.records Examples.rw
          (Examples.query [mkQuestion "test.com." 1 1]) World_start)
     = Answer <$> reply_of
         (handleDNSRequest (Reference.library Reference.offline)
            Examples.config_off Examples.records Examples.rw
            (Examples.query [mkQuestion "test.com." 28 3]) World_start).
Proof.
  destruct (question_type_ignored (Reference.library Reference.offline)
              Examples.config_off Examples.records) as [Hq Hr].
  split.
  - apply Hq.
  - apply Hr; [apply Reference_SetReply_copies|reflexivity|reflexivity].
Defined.

(** X2. A name that has a descriptor in the store is never forwarded, not
    even when no record can be built from the descriptor: the question
    adds at most one answer, the same whatever the forwarding settings,
    the query around it and the world, and no exchange with an upstream
    server is made for it. *)
Theorem configured_name_never_forwarded (lib : Library) (records : Records)
    (config config' : Config) (r r' : dns_Msg) (q : dns_Question)
    (w w' : World) (record : Record_) :
  records !! strings.TrimSuffix (Name q) "." = Some record ->
  questionAnswers lib config records r q w
  = questionAnswers lib config' records r' q w'
  /\ (length (questionAnswers lib config records r q w) <= 1)%nat
  /\ exchanged (questionWorld lib config records r q w) = exchanged w
  /\ written (questionWorld lib config records r q w) = written w.
Proof.
  intros Hl.
  assert (Hm : misses records q = false) by (unfold misses; rewrite Hl; reflexivity).
  destruct (hit_independent lib records config config' r r' q w w' Hm)
    as (Ha & Hlen & Hx).
  repeat split; try assumption. apply questionWorld_written.
Qed.

(** "bad.test.com." has a descriptor the library refuses; with forwarding
    enabled and a server that would answer, nothing is appended and
    nothing is exchanged. *)
Lemma configured_name_never_forwarded_witness :
  questionAnswers (Reference.library Examples.first_answers)
    Examples.config_on Examples.records (Examples.query [Examples.q_bad])
    Examples.q_bad World_start = []
  /\ exchanged (questionWorld (Reference.library Examples.first_answers)
                  Examples.config_on Examples.records
                  (Examples.query [Examples.q_bad]) Examples.q_bad World_start)
     = [].
Proof.
  destruct (configured_name_never_forwarded
              (Reference.library Examples.first_answers) Examples.records
              Examples.config_on Examples.config_off
              (Examples.query [Examples.q_bad]) (Examples.query [])
              Examples.q_bad World_start World_start
              {| Type_ := "A"; Value := ""; Priority := 0; TTL := 300 |})
    as (Ha & _ & Hx & _).
  - vm_compute. reflexivity.
  - split; [rewrite Ha; vm_compute; reflexivity|exact Hx].
Defined.

(** X3. With forwarding disabled the handler never exchanges a message
    with an upstream server, and the reply does not depend on what
    happened before: its answer section is the local answers of the
    questions, in order, at most one per question. *)
Theorem no_forwarding_no_exchange (lib : Library) (config : Config)
    (records : Records) (rw : ResponseWriter) (r : dns_Msg) (w : World) :
  SetReply_copies lib ->
  Enabled (Forwarding config) = false ->
  exchanged (world_of (handleDNSRequest lib config records rw r w))
  = exchanged w
  /\ exists reply : dns_Msg,
       reply_of (handleDNSRequest lib config records rw r w) = Some reply
       /\ Answer reply
          = flat_map (fun q => questionAnswers lib config records Msg_zero q
                                 World_start) (Question r)
       /\ (length (Answer reply) <= length (Question r))%nat.
Proof.
  intros Hc He. split.
  - rewrite handleDNSRequest_exchanged. apply no_forwarding_exchanged, He.
  - destruct (no_forwarding_reply lib config records rw r w Hc He)
      as (reply & Hr & Ha).
    exists reply. split; [exact Hr|]. split; [exact Ha|].
    rewrite Ha, flat_map_concat_map.
    etransitivity; [apply length_concat_le|rewrite length_map; reflexivity].
    apply List.Forall_forall. intros l Hl.
    apply in_map_iff in Hl as (q & <- & _).
    apply (no_forwarding_local lib records config Msg_zero Msg_zero q
             World_start World_start He).
Qed.

(** A query for an unknown name, "test.com." and a name whose record is
    refused, after earlier exchanges: no new exchange, one answer. *)
Lemma no_forwarding_no_exchange_witness :
  exchanged (world_of (handleDNSRequest (Reference.library Examples.first_answers)
                         Examples.config_off Examples.records Examples.rw
                         (Examples.query [Examples.q_unknown; Examples.q_test;
                                          Examples.q_bad])
                         (with_exchanged World_start
                            [("8.8.8.8:53"%string, Examples.query [])])))
  = [("8.8.8.8:53"%string, Examples.query [])]
  /\ exists reply : dns_Msg,
       reply_of (handleDNSRequest (Reference.library Examples.first_answers)
                   Examples.config_off Examples.records Examples.rw
                   (Examples.query [Examples.q_unknown; Examples.q_test;
                                    Examples.q_bad])
                   (with_exchanged World_start
                      [("8.8.8.8:53"%string, Examples.query [])]))
       = Some reply
       /\ map Rdata (Answer reply) = ["127.0.0.1"%string].
Proof.
  destruct (no_forwarding_no_exchange (Reference.library Examples.first_answers)
              Examples.config_off Examples.records Examples.rw
              (Examples.query [Examples.q_unknown; Examples.q_test;
                               Examples.q_bad])
              (with_exchanged World_start
                 [("8.8.8.8:53"%string, Examples.query [])])
              (Reference_SetReply_copies Examples.first_answers) eq_refl)
    as (Hx & reply & Hr & Ha & _).
  split; [exact Hx|]. exists reply. split; [exact Hr|].
  rewrite Ha. vm_compute. reflexivity.
Defined.

Section Exchange_facts.

Variable lib : Library.
Variable config : Config.
Variable records : Records.

Lemma In_firstn (A : Type) (n : nat) (l : list A) (x : A) :
  In x (firstn n l) -> In x l.
Proof.
  intros H. rewrite <- (firstn_skipn n l). apply in_or_app. left. exact H.
Qed.

(** One call of the forwarder exchanges the message with an initial part
    of the server list, in order. *)
Lemma forwarder_exchanges (r : dns_Msg) (servers : list string) (w : World) :
  exists n : nat,
    (n <= length servers)%nat
    /\ exchanged (snd (requestFromUpsreamServers lib r servers w))
       = exchanged w ++ map (fun s => (s, r)) (firstn n servers).
Proof.
  pose proof (forwarder_outcome lib r servers w) as H.
  destruct (requestFromUpsreamServers lib r servers w) as [[resp|e] w'].
  - destruct H as (n & s & Hn & _ & _ & ->). exists (S n). split.
    + apply Nat.le_succ_l. apply nth_error_Some. congruence.
    + reflexivity.
  - destruct H as (_ & _ & ->). exists (length servers). split; [lia|].
    reflexivity.
Qed.

(** The exchanges one question causes: none for a hit, at most one per
    configured server for a miss, each with the query as it came in. *)
Lemma question_exchanges (r : dns_Msg) (q : dns_Question) (w : World) :
  exists extra : list (string * dns_Msg),
    exchanged (questionWorld lib config records r q w) = exchanged w ++ extra
    /\ Forall (fun e => In (fst e) (Servers (Forwarding config)) /\ snd e = r)
         extra
    /\ (length extra
        <= if misses records q then length (Servers (Forwarding config))
           else 0)%nat.
Proof.
  destruct (misses records q) eqn:Hm.
  - unfold misses in Hm. unfold questionWorld, handleQuestion.
    destruct (records !! strings.TrimSuffix (Name q) ".") as [record|];
      [discriminate|].
    destruct (Enabled (Forwarding config)).
    + destruct (forwarder_exchanges r (Servers (Forwarding config)) w)
        as (n & Hn & Hx).
      exists (map (fun s => (s, r)) (firstn n (Servers (Forwarding config)))).
      split; [|split].
      * destruct (requestFromUpsreamServers lib r
                    (Servers (Forwarding config)) w) as [[resp|e] w'];
          simpl in *; exact Hx.
      * apply List.Forall_forall. intros e He.
        apply in_map_iff in He as (s & <- & Hs). simpl. split; [|reflexivity].
        apply In_firstn in Hs. exact Hs.
      * rewrite length_map, length_firstn. lia.
    + exists []. simpl. rewrite app_nil_r. repeat split; [constructor|lia].
  - exists []. rewrite app_nil_r. split; [|split; [constructor|simpl; lia]].
    apply (hit_independent lib records config config r r q w w Hm).
Qed.

Lemma questions_exchanges (r : dns_Msg) (qs : list dns_Question) (w : World) :
  exists extra : list (string * dns_Msg),
    exchanged (worldAfter lib config records r qs w) = exchanged w ++ extra
    /\ Forall (fun e => In (fst e) (Servers (Forwarding config)) /\ snd e = r)
         extra
    /\ (length extra
        <= length (List.filter (misses records) qs)
           * length (Servers (Forwarding config)))%nat.
Proof.
  revert w. induction qs as [|q qs IH]; intros w.
  - exists []. simpl. rewrite app_nil_r. repeat split; [constructor|lia].
  - simpl. destruct (question_exchanges r q w) as (e1 & Hx1 & Hf1 & Hl1).
    destruct (IH (questionWorld lib config records r q w))
      as (e2 & Hx2 & Hf2 & Hl2).
    exists (e1 ++ e2). split; [|split].
    + rewrite Hx2, Hx1, app_assoc. reflexivity.
    + apply Forall_app. split; assumption.
    + rewrite length_app. destruct (misses records q); simpl in *; lia.
Qed.

(** The log lines one question causes: one when it fails, none otherwise. *)
Lemma question_logged (r : dns_Msg) (q : dns_Question) (w : World) :
  exists lines : list string,
    logged (questionWorld lib config records r q w) = logged w ++ lines
    /\ length lines
       = if failed (failure lib config records r q w) then 1%nat else 0%nat.
Proof.
  unfold questionWorld, failure, handleQuestion.
  destruct (records !! strings.TrimSuffix (Name q) ".") as [record|].
  - destruct (newRecord lib q record) as [[rr|e]|]; simpl.
    + exists []. rewrite app_nil_r. split; reflexivity.
    + eexists [_]. split; reflexivity.
    + eexists [_]. split; reflexivity.
  - destruct (Enabled (Forwarding config)); simpl.
    + pose proof (requestFromUpsreamServers_world lib r
                    (Servers (Forwarding config)) w) as [Hlog _].
      destruct (requestFromUpsreamServers lib r
                  (Servers (Forwarding config)) w) as [[resp|e] w'];
        simpl in *.
      * exists []. rewrite app_nil_r. split; [exact Hlog|reflexivity].
      * exists [e]. rewrite Hlog. split; reflexivity.
    + exists []. rewrite app_nil_r. split; reflexivity.
Qed.

Lemma questions_logged (r : dns_Msg) (qs : list dns_Question) (w : World) :
  exists lines : list string,
    logged (worldAfter lib config records r qs w) = logged w ++ lines
    /\ length lines
       = length (List.filter failed
                   (failuresInOrder lib config records r qs w)).
Proof.
  revert w. induction qs as [|q qs IH]; intros w.
  - exists []. simpl. rewrite app_nil_r. split; reflexivity.
  - simpl. destruct (question_logged r q w) as (l1 & Hx1 & Hl1).
    destruct (IH (questionWorld lib config records r q w)) as (l2 & Hx2 & Hl2).
    exists (l1 ++ l2). split.
    + rewrite Hx2, Hx1, app_assoc. reflexivity.
    + rewrite length_app, Hl1, Hl2.
      destruct (failed (failure lib config records r q w)); reflexivity.
Qed.

End Exchange_facts.

Lemma exchanges_bounded_aux (lib : Library) (config : Config)
    (records : Records) (rw : ResponseWriter) (r : dns_Msg) (w : World) :
  exists extra : list (string * dns_Msg),
    exchanged (world_of (handleDNSRequest lib config records rw r w))
    = exchanged w ++ extra
    /\ Forall (fun e => In (fst e) (Servers (Forwarding config)) /\ snd e = r)
         extra
    /\ (length extra
        <= length (List.filter (misses records) (Question r))
           * length (Servers (Forwarding config)))%nat.
Proof.
  rewrite handleDNSRequest_exchanged. apply questions_exchanges.
Qed.

(** X4. Whatever the query and the network, every exchange the handler
    makes with an upstream server goes to a server of the configured list
    and carries the query as it came in, and their number is at most the
    number of questions that miss the store times the number of configured
    servers. *)
Theorem exchanges_bounded (lib : Library) (config : Config)
    (records : Records) (rw : ResponseWriter) (r : dns_Msg) (w : World) :
  exists extra : list (string * dns_Msg),
    exchanged (world_of (handleDNSRequest lib config records rw r w))
    = exchanged w ++ extra
    /\ Forall (fun e => In (fst e) (Servers (Forwarding config)) /\ snd e = r)
         extra
    /\ (length extra
        <= length (List.filter (misses records) (Question r))
           * length (Servers (Forwarding config)))%nat.
Proof. apply exchanges_bounded_aux. Qed.

(** X5. Trying a list of servers followed by a second list is trying the
    first list and, only when every server of it failed, going on with the
    second list in the world so reached: servers added at the end never
    change the outcome when an earlier server answers. *)
Theorem forwarder_fallback (lib : Library) (r : dns_Msg)
    (servers more : list string) (w : World) :
  requestFromUpsreamServers lib r (servers ++ more) w
  = match requestFromUpsreamServers lib r servers w with
    | (inl resp, w') => (inl resp, w')
    | (inr _, w') => requestFromUpsreamServers lib r more w'
    end.
Proof.
  revert w. induction servers as [|s servers IH]; intros w; [reflexivity|].
  simpl. unfold do_Exchange.
  destruct (Exchange lib (exchanged w) r s) as [resp|e]; [reflexivity|].
  apply IH.
Qed.

(** X6. The handler logs one line for each question that fails, none for a
    question that is answered or skipped without error, and last the line
    naming the first question; with an empty question section it logs
    nothing. *)
Theorem log_lines_counted (lib : Library) (config : Config)
    (records : Records) (rw : ResponseWriter) (r : dns_Msg) (w : World) :
  (Question r = [] ->
   logged (world_of (handleDNSRequest lib config records rw r w)) = logged w)
  /\ (forall (q0 : dns_Question) (qs : list dns_Question),
        Question r = q0 :: qs ->
        exists lines : list string,
          logged (world_of (handleDNSRequest lib config records rw r w))
          = logged w ++ lines
            ++ ["query: " +:+ Name q0 +:+ " from: " +:+ RemoteAddr rw]
          /\ length lines
             = length (List.filter failed
                         (failuresInOrder lib config records r
                            (Question r) w))).
Proof.
  unfold handleDNSRequest. rewrite handleQuestions_concat.
  destruct (questions_logged lib config records r (Question r) w)
    as (lines & Hlog & Hlen).
  destruct (Question r) as [|q0 qs] eqn:Hq.
  - split; [intros _; reflexivity|discriminate].
  - split; [discriminate|]. intros q0' qs' H. injection H as <- <-.
    exists lines. split; [|exact Hlen].
    cbn [world_of logged log_Print WriteMsg].
    rewrite Sprintf_query, Hlog, <- app_assoc. reflexivity.
Qed.

(** X7. Forwarding enabled with an empty server list answers like
    forwarding disabled: the same reply is written and no exchange is
    made. *)
Theorem no_servers_like_disabled (lib : Library) (config : Config)
    (records : Records) (rw : ResponseWriter) (r : dns_Msg) (w : World) :
  Servers (Forwarding config) = [] ->
  written (world_of (handleDNSRequest lib config records rw r w))
  = written (world_of (handleDNSRequest lib (without_forwarding config)
                         records rw r w))
  /\ exchanged (world_of (handleDNSRequest lib config records rw r w))
     = exchanged w.
Proof.
  intros Hs. split.
  - rewrite !handleDNSRequest_written.
    rewrite (answers_pointwise lib records config (without_forwarding config)
               r r (Question r)) with (w' := w); [reflexivity|].
    intros q w1 w2 _.
    destruct (misses records q) eqn:Hm.
    + unfold misses in Hm. unfold questionAnswers, handleQuestion.
      destruct (records !! strings.TrimSuffix (Name q) ".") as [record|];
        [discriminate|].
      rewrite Hs. simpl. destruct (Enabled (Forwarding config)); reflexivity.
    + apply (hit_independent lib records config (without_forwarding config)
               r r q w1 w2 Hm).
  - destruct (exchanges_bounded_aux lib config records rw r w)
      as (extra & -> & _ & Hlen).
    rewrite Hs in Hlen. simpl in Hlen.
    destruct extra; [apply app_nil_r|simpl in Hlen; lia].
Qed.

(** A query for an unknown name and for "test.com.", forwarding enabled
    without servers: the reply is the one written with forwarding off, and
    nothing is exchanged. *)
Lemma no_servers_like_disabled_witness :
  written (world_of (handleDNSRequest (Reference.library Examples.first_answers)
                       config_no_servers Examples.records Examples.rw
                       (Examples.query [Examples.q_unknown; Examples.q_test])
                       World_start))
  = written (world_of (handleDNSRequest
                         (Reference.library Examples.first_answers)
                         (without_forwarding config_no_servers)
                         Examples.records Examples.rw
                         (Examples.query [Examples.q_unknown; Examples.q_test])
                         World_start))
  /\ exchanged (world_of (handleDNSRequest
                            (Reference.library Examples.first_answers)
                            config_no_servers Examples.records Examples.rw
                            (Examples.query [Examples.q_unknown;
                                             Examples.q_test])
                            World_start))
     = [].
Proof.
  apply (no_servers_like_disabled (Reference.library Examples.first_answers)
           config_no_servers Examples.records Examples.rw
           (Examples.query [Examples.q_unknown; Examples.q_test]) World_start).
  reflexivity.
Defined.

(** ** Loading the configuration and starting the server *)

Section Main_facts.

Variable sys : System.

Lemma Sprintf_1 (a b c : string) :
  fmt.Sprintf "failed to save default config: %v" [fmt.Str a]
  = "failed to save default config: " +:+ a
  /\ fmt.Sprintf "starting DNS server on port %s" [fmt.Str b]
     = "starting DNS server on port " +:+ b
  /\ fmt.Sprintf "failed to load config: %v" [fmt.Str c]
     = "failed to load config: " +:+ c.
Proof. cbn. rewrite !append_empty_r. repeat split. Qed.

(** The "config" command ends the process and starts nothing. *)
Lemma main_config_exits (flags : ConfigFlags) :
  existsb starts_server (fst (main_config sys flags)) = false
  /\ exists code : Z, snd (main_config sys flags) = ExitCode code.
Proof.
  unfold main_config, log_Fatalf, LoadConfig.
  destruct (saveConfig flags).
  - destruct (json_MarshalIndent sys DefaultConfig) as [data|err];
      [|simpl; eauto].
    destruct (os_WriteFile sys _ data 420); simpl; eauto.
  - destruct (printConfig flags); [|simpl; eauto].
    destruct (printDefault flags).
    + destruct (json_MarshalIndent sys DefaultConfig); simpl; eauto.
    + destruct (os_ReadFile sys _) as [data|err]; [|simpl; eauto].
      destruct (json_Unmarshal sys data) as [c|err]; [|simpl; eauto].
      destruct (json_MarshalIndent sys c); simpl; eauto.
Qed.

(** The tail of [main]: either the configuration cannot be loaded and the
    process exits with code 1 after the read, or the four steps of the
    start are taken with the configuration loaded. *)
Lemma main_serve_cases (path : string) :
  (exists e : LoadError,
     LoadConfig sys path = inr e
     /\ main_serve sys path
        = ([Read path; Logged ("failed to load config: " +:+ Error e)],
           ExitCode 1))
  \/ (exists (data : string) (config : Config) (more : list Event),
        os_ReadFile sys path = inl data
        /\ json_Unmarshal sys data = inl config
        /\ fst (main_serve sys path)
           = [Read path;
              HandleFunc "." (Config_Records config);
              Logged ("starting DNS server on port "
                        +:+ Port (Server config));
              Listen (BindAddress (Server config) +:+ ":"
                        +:+ Port (Server config)) "udp"] ++ more
        /\ existsb starts_server more = false
        /\ (forall c, snd (main_serve sys path) = Serving c -> c = config)).
Proof.
  unfold main_serve, log_Fatalf.
  destruct (LoadConfig sys path) as [config|e] eqn:Hload.
  - right. unfold LoadConfig in Hload.
    destruct (os_ReadFile sys path) as [data|err] eqn:Hread; [|discriminate].
    destruct (json_Unmarshal sys data) as [c|err] eqn:Hjson; [|discriminate].
    injection Hload as ->.
    destruct (Sprintf_1 "" (Port (Server config)) "") as (_ & -> & _).
    exists data, config.
    destruct (ListenAndServe sys _) as [|[err|]].
    + exists []. repeat split; try assumption.
      intros c H. simpl in H. congruence.
    + eexists [_]. repeat split; try assumption.
      intros c H. simpl in H. discriminate.
    + exists []. repeat split; try assumption.
      intros c H. simpl in H. discriminate.
  - left. exists e. split; [reflexivity|].
    destruct (Sprintf_1 "" "" (Error e)) as (_ & _ & ->). reflexivity.
Qed.

End Main_facts.

(** X9. The "config" command never registers the handler nor starts the
    server, whatever its arguments: the process always exits. *)
Theorem config_command_never_serves (sys : System) (prog : string)
    (rest : list string) :
  existsb starts_server (fst (main sys (prog :: "config"%string :: rest)))
  = false
  /\ exists code : Z,
       snd (main sys (prog :: "config"%string :: rest)) = ExitCode code.
Proof.
  simpl. destruct (Parse_config sys rest) as [flags|code].
  - apply main_config_exits.
  - simpl. eauto.
Qed.

(** X10. With [-save] the "config" command writes the template,
    [DefaultConfig], with mode 0644 to the path of [-config-path], or to
    the default path, and does nothing else, whether or not [-print] or
    [-template] are given: no file is read and nothing is printed.  It
    exits with code 0 when the file was written, and with code 1 after
    logging the error otherwise. *)
Theorem save_takes_precedence (sys : System) (prog : string)
    (rest : list string) (flags : ConfigFlags) (data : string) :
  Parse_config sys rest = inl flags ->
  saveConfig flags = true ->
  json_MarshalIndent sys DefaultConfig = inl data ->
  main sys (prog :: "config"%string :: rest)
  = match os_WriteFile sys
            (from_option id defaultConfigPath (config_path flags)) data 420 with
    | None =>
        ([Write (from_option id defaultConfigPath (config_path flags))
            data 420],
         ExitCode 0)
    | Some err =>
        ([Write (from_option id defaultConfigPath (config_path flags))
            data 420;
          Logged ("failed to save default config: " +:+ err)],
         ExitCode 1)
    end.
Proof.
  intros Hp Hs Hm. simpl. rewrite Hp. unfold main_config, log_Fatalf.
  rewrite Hs, Hm.
  destruct (os_WriteFile sys _ data 420) as [err|]; [|reflexivity].
  destruct (Sprintf_1 err "" "") as (-> & _). reflexivity.
Qed.

(** "config -save -print -config-path /tmp/c.json" on the sample system:
    one write, nothing printed. *)
Lemma save_takes_precedence_witness :
  main Sample.system
    ["easydns"; "config"; "-save"; "-print"; "-config-path"; "/tmp/c.json"]%string
  = ([Write "/tmp/c.json" "{port: 53}" 420], ExitCode 0).
Proof.
  apply (save_takes_precedence Sample.system "easydns"
           ["-save"; "-print"; "-config-path"; "/tmp/c.json"]%string
           (mkConfigFlags true true false (Some "/tmp/c.json"%string))
           "{port: 53}" eq_refl eq_refl eq_refl).
Defined.

(** X11. Without [-save], [-template] only matters together with
    [-print]: "config -print -template" prints the template without
    touching the file system; "config -print" first reads the
    configuration file; and without [-print] the command only shows its
    usage. *)
Theorem template_needs_print (sys : System) (prog : string)
    (rest : list string) (flags : ConfigFlags) :
  Parse_config sys rest = inl flags ->
  saveConfig flags = false ->
  (printConfig flags = true -> printDefault flags = true ->
   existsb touches_files (fst (main sys (prog :: "config"%string :: rest)))
   = false
   /\ forall data : string,
        json_MarshalIndent sys DefaultConfig = inl data ->
        main sys (prog :: "config"%string :: rest)
        = ([Stdout (data +:+ nl)], ExitCode 0))
  /\ (printConfig flags = true -> printDefault flags = false ->
      exists more : list Event,
        fst (main sys (prog :: "config"%string :: rest))
        = Read (from_option id defaultConfigPath (config_path flags)) :: more)
  /\ (printConfig flags = false ->
      main sys (prog :: "config"%string :: rest)
      = ([Usage "config"], ExitCode 0)).
Proof.
  intros Hp Hs. simpl. rewrite Hp. unfold main_config, log_Fatalf.
  rewrite Hs. split; [|split].
  - intros -> ->. split.
    + destruct (json_MarshalIndent sys DefaultConfig); reflexivity.
    + intros data ->. reflexivity.
  - intros -> ->. unfold LoadConfig.
    destruct (os_ReadFile sys _) as [data|err]; [|simpl; eauto].
    destruct (json_Unmarshal sys data) as [c|err]; [|simpl; eauto].
    destruct (json_MarshalIndent sys c); simpl; eauto.
  - intros ->. reflexivity.
Qed.

(** "config -print -template" and "config -template" on the sample
    system. *)
Lemma template_needs_print_witness :
  main Sample.system ["easydns"; "config"; "-print"; "-template"]%string
  = ([Stdout ("{port: 53}" +:+ nl)], ExitCode 0)
  /\ main Sample.system ["easydns"; "config"; "-template"]%string
     = ([Usage "config"], ExitCode 0).
Proof.
  split.
  - apply (proj1 (template_needs_print Sample.system "easydns"
                    ["-print"; "-template"]%string
                    (mkConfigFlags false true true None) eq_refl eq_refl)
             eq_refl eq_refl).
    reflexivity.
  - apply (proj2 (proj2 (template_needs_print Sample.system "easydns"
                    ["-template"]%string
                    (mkConfigFlags false false true None) eq_refl eq_refl))
             eq_refl).
Defined.

(** X12. A first argument other than "config" and "run" makes [main]
    load the configuration and start the server without parsing any flag:
    the outcome does not depend on the arguments after it, so a
    [-config-path] given there is ignored; the configuration is read from
    the default path; and the run is that of "run" without arguments
    whenever parsing no argument sets no flag. *)
Theorem unknown_command_ignores_arguments (sys : System) (prog command : string)
    (rest : list string) :
  command <> "config"%string ->
  command <> "run"%string ->
  (forall rest' : list string,
     main sys (prog :: command :: rest) = main sys (prog :: command :: rest'))
  /\ (exists more : list Event,
        fst (main sys (prog :: command :: rest))
        = Read defaultConfigPath :: more)
  /\ (Parse_run sys [] = inl None ->
      main sys (prog :: command :: rest) = main sys [prog; "run"%string]).
Proof.
  intros Hc Hr. apply String.eqb_neq in Hc, Hr. split; [|split].
  - intros rest'. simpl. rewrite Hc, Hr. reflexivity.
  - simpl. rewrite Hc, Hr.
    destruct (main_serve_cases sys defaultConfigPath)
      as [(e & _ & ->)|(data & config & more & _ & _ & -> & _)];
      simpl; eauto.
  - intros Hp. simpl. rewrite Hc, Hr, Hp. reflexivity.
Qed.

(** "serve -config-path /etc/easydns.json" on the sample system, where
    that file exists: the default path is read instead, and the process
    exits with code 1. *)
Lemma unknown_command_ignores_arguments_witness :
  main Sample.system
    ["easydns"; "serve"; "-config-path"; "/etc/easydns.json"]%string
  = main Sample.system ["easydns"; "serve"]%string
  /\ exists more : list Event,
       fst (main Sample.system
              ["easydns"; "serve"; "-config-path"; "/etc/easydns.json"]%string)
       = Read "~/.easydns/config.json" :: more.
Proof.
  destruct (unknown_command_ignores_arguments Sample.system "easydns" "serve"
              ["-config-path"; "/etc/easydns.json"]%string)
    as (Hsame & Hread & _); [discriminate|discriminate|].
  split; [apply Hsame|exact Hread].
Defined.

(** X13. The handler is registered and the server started only with a
    configuration that was read from a file and decoded: whenever [main]
    does either, it has first read a file whose text decodes to a
    configuration, has registered the handler for "." with the records of
    that configuration, logged the port and started the UDP server on the
    bind address and port of that configuration joined by a colon, in
    this order; and when the server keeps serving, the global
    configuration is that one. *)
Theorem server_needs_loaded_config (sys : System) (Args : list string) :
  (existsb starts_server (fst (main sys Args)) = true ->
   exists (path data : string) (config : Config) (more : list Event),
     os_ReadFile sys path = inl data
     /\ json_Unmarshal sys data = inl config
     /\ fst (main sys Args)
        = [Read path;
           HandleFunc "." (Config_Records config);
           Logged ("starting DNS server on port " +:+ Port (Server config));
           Listen (BindAddress (Server config) +:+ ":"
                     +:+ Port (Server config)) "udp"] ++ more
     /\ existsb starts_server more = false
     /\ (forall c, snd (main sys Args) = Serving c -> c = config))
  /\ (forall c : Config,
        snd (main sys Args) = Serving c ->
        existsb starts_server (fst (main sys Args)) = true).
Proof.
  assert (Hserve : forall path,
            (existsb starts_server (fst (main_serve sys path)) = true ->
             exists (path' data : string) (config : Config) (more : list Event),
               os_ReadFile sys path' = inl data
               /\ json_Unmarshal sys data = inl config
               /\ fst (main_serve sys path)
                  = [Read path';
                     HandleFunc "." (Config_Records config);
                     Logged ("starting DNS server on port "
                               +:+ Port (Server config));
                     Listen (BindAddress (Server config) +:+ ":"
                               +:+ Port (Server config)) "udp"] ++ more
               /\ existsb starts_server more = false
               /\ (forall c, snd (main_serve sys path) = Serving c ->
                             c = config))
            /\ (forall c, snd (main_serve sys path) = Serving c ->
                  existsb starts_server (fst (main_serve sys path)) = true)).
  { intros path.
    destruct (main_serve_cases sys path)
      as [(e & _ & He)|(data & config & more & Hr & Hj & Hev & Hm & Hc)].
    - rewrite He. split; [discriminate|]. intros c H. discriminate H.
    - split.
      + intros _. exists path, data, config, more. auto.
      + intros c _. rewrite Hev. reflexivity. }
  destruct Args as [|prog [|command rest]].
  - split; [discriminate|]. intros c H. discriminate H.
  - split; [discriminate|]. intros c H. discriminate H.
  - simpl. destruct (String.eqb command "config").
    + destruct (Parse_config sys rest) as [flags|code].
      * destruct (main_config_exits sys flags) as [Hno [code Hex]].
        split; [rewrite Hno; discriminate|].
        intros c H. rewrite Hex in H. discriminate H.
      * split; [discriminate|]. intros c H. discriminate H.
    + destruct (String.eqb command "run").
      * destruct (Parse_run sys rest) as [p|code]; [apply Hserve|].
        split; [discriminate|]. intros c H. discriminate H.
      * apply Hserve.
Qed.

(** "run -config-path /etc/easydns.json" on the sample system: the file
    is read and decoded before the handler is registered and the server
    started on ":53". *)
Lemma server_needs_loaded_config_witness :
  exists (path data : string) (config : Config) (more : list Event),
    os_ReadFile Sample.system path = inl data
    /\ json_Unmarshal Sample.system data = inl config
    /\ fst (main Sample.system
              ["easydns"; "run"; "-config-path"; "/etc/easydns.json"]%string)
       = [Read path;
          HandleFunc "." (Config_Records config);
          Logged ("starting DNS server on port " +:+ Port (Server config));
          Listen (BindAddress (Server config) +:+ ":"
                    +:+ Port (Server config)) "udp"] ++ more
    /\ existsb starts_server more = false
    /\ (forall c,
          snd (main Sample.system
                 ["easydns"; "run"; "-config-path";
                  "/etc/easydns.json"]%string) = Serving c ->
          c = config).
Proof.
  apply (proj1 (server_needs_loaded_config Sample.system
                  ["easydns"; "run"; "-config-path";
                   "/etc/easydns.json"]%string)).
  vm_compute. reflexivity.
Defined.

(** ** Answers built from the record store *)












(** ** What the handler logs and looks up *)

Lemma worldAfter_app (lib : Library) (config : Config) (records : Records)
    (r : dns_Msg) (qs1 qs2 : list dns_Question) (w : World) :
  worldAfter lib config records r (qs1 ++ qs2) w
  = worldAfter lib config records r qs2
      (worldAfter lib config records r qs1 w).
Proof.
  revert w. induction qs1 as [|q qs1 IH]; intros w; [reflexivity|].
  simpl. apply IH.
Qed.

Lemma handleDNSRequest_logged (lib : Library) (config : Config)
    (records : Records) (rw : ResponseWriter) (r : dns_Msg) (w : World)
    (q0 : dns_Question) (qs : list dns_Question) :
  Question r = q0 :: qs ->
  logged (world_of (handleDNSRequest lib config records rw r w))
  = logged (worldAfter lib config records r (Question r) w)
    ++ ["query: " +:+ Name q0 +:+ " from: " +:+ RemoteAddr rw].
Proof.
  intros Hq. unfold handleDNSRequest. rewrite handleQuestions_concat, Hq.
  cbn [world_of logged log_Print WriteMsg]. rewrite Sprintf_query.
  reflexivity.
Qed.

(** C6. A store hit whose descriptor has a type other than A, AAAA, CNAME,
    TXT, NS, PTR, MX and SRV: the handler logs the line "Unsupported
    record type: " followed by the type, and appends nothing for the
    question: the reply is unchanged, and so are the exchanges and the
    messages written.  The loop goes on with the questions after it on the
    same reply; the reply written holds the answers of the other
    questions; and the line is among the lines logged by the call, before
    the line of the query. *)
Theorem unsupported_type_skipped (lib : Library) (config : Config)
    (records : Records) (r : dns_Msg) (q : dns_Question) (record : Record_) :
  records !! strings.TrimSuffix (Name q) "." = Some record ->
  ~ In (Type_ record) supported ->
  (forall (msg : dns_Msg) (w : World),
     handleQuestion lib config records r (msg, w) q
     = (msg, log_Print ("Unsupported record type: " +:+ Type_ record) w)
     /\ Answer (fst (handleQuestion lib config records r (msg, w) q))
        = Answer msg
     /\ logged (snd (handleQuestion lib config records r (msg, w) q))
        = logged w ++ ["Unsupported record type: " +:+ Type_ record]
     /\ exchanged (snd (handleQuestion lib config records r (msg, w) q))
        = exchanged w
     /\ written (snd (handleQuestion lib config records r (msg, w) q))
        = written w)
  /\ (forall (qs1 qs2 : list dns_Question) (st : dns_Msg * World),
        handleQuestions lib config records r (qs1 ++ q :: qs2) st
        = handleQuestions lib config records r qs2
            (fst (handleQuestions lib config records r qs1 st),
             log_Print ("Unsupported record type: " +:+ Type_ record)
               (snd (handleQuestions lib config records r qs1 st))))
  /\ (forall (rw : ResponseWriter) (w : World) (qs1 qs2 : list dns_Question),
        Question r = qs1 ++ q :: qs2 ->
        written (world_of (handleDNSRequest lib config records rw r w))
        = written w
          ++ [append_Answer (SetReply lib Msg_zero r)
                (concat (answersInOrder lib config records r qs1 w)
                 ++ concat (answersInOrder lib config records r qs2
                      (log_Print ("Unsupported record type: " +:+ Type_ record)
                         (worldAfter lib config records r qs1 w))))]
        /\ exists (before after : list string),
             logged (world_of (handleDNSRequest lib config records rw r w))
             = logged w ++ before
               ++ ["Unsupported record type: " +:+ Type_ record] ++ after
             /\ after <> []).
Proof.
  intros Hl Ht.
  assert (Hstep : forall msg w,
             handleQuestion lib config records r (msg, w) q
             = (msg, log_Print ("Unsupported record type: " +:+ Type_ record) w))
    by (intros msg w; apply unsupported_step; assumption).
  split; [|split].
  - intros msg w. rewrite Hstep. repeat split.
  - intros qs1 qs2 st. rewrite handleQuestions_app, handleQuestions_cons.
    destruct (handleQuestions lib config records r qs1 st) as [m1 w1].
    rewrite Hstep. reflexivity.
  - intros rw w qs1 qs2 Hqs. split.
    + rewrite handleDNSRequest_written, Hqs. rewrite answers_around.
      * unfold questionWorld. rewrite Hstep. reflexivity.
      * unfold questionAnswers. rewrite Hstep. reflexivity.
    + assert (Hne : exists q0 qs, Question r = q0 :: qs).
      { rewrite Hqs. destruct qs1 as [|q1 qs1]; simpl; eauto. }
      destruct Hne as (q0 & qs & Hq0).
      rewrite (handleDNSRequest_logged lib config records rw r w q0 qs Hq0).
      rewrite Hqs, worldAfter_app. simpl worldAfter.
      destruct (questions_logged lib config records r qs1 w) as (l1 & Hl1 & _).
      destruct (questions_logged lib config records r qs2
                  (questionWorld lib config records r q
                     (worldAfter lib config records r qs1 w)))
        as (l2 & Hl2 & _).
      exists l1, (l2 ++ ["query: " +:+ Name q0 +:+ " from: " +:+ RemoteAddr rw]).
      split.
      * rewrite Hl2. unfold questionWorld. rewrite Hstep. simpl.
        rewrite Hl1. rewrite <- !app_assoc. reflexivity.
      * destruct l2; discriminate.
Qed.

(** The query "old.test.com.", whose record has type SPF, then "test.com.":
    the question leaves the reply as it is and logs its line; the call
    writes the answer of "test.com." and logs the line of the unsupported
    type before the line of the query. *)
Lemma unsupported_type_skipped_witness :
  handleQuestion (Reference.library Reference.offline) Examples.config_on
    Examples.records (Examples.query [Examples.q_old; Examples.q_test])
    (Msg_zero, World_start) Examples.q_old
  = (Msg_zero,
     {| exchanged := []; logged := ["Unsupported record type: SPF"%string];
        written := [] |})
  /\ written (world_of (handleDNSRequest (Reference.library Reference.offline)
                          Examples.config_on Examples.records Examples.rw
                          (Examples.query [Examples.q_old; Examples.q_test])
                          World_start))
     = [{| Id := 4242; Response := true; Rcode := RcodeSuccess;
           Question := [Examples.q_old];
           Answer := [{| Header := {| Hdr_Name := "test.com."; Rrtype := "A";
                                     Class := "IN"; Ttl := 600 |};
                         Rdata := "127.0.0.1" |}] |}]
  /\ logged (world_of (handleDNSRequest (Reference.library Reference.offline)
                         Examples.config_on Examples.records Examples.rw
                         (Examples.query [Examples.q_old; Examples.q_test])
                         World_start))
     = ["Unsupported record type: SPF";
        "query: old.test.com. from: 192.0.2.7:53000"]%string.
Proof.
  destruct (unsupported_type_skipped (Reference.library Reference.offline)
              Examples.config_on Examples.records
              (Examples.query [Examples.q_old; Examples.q_test])
              Examples.q_old Examples.record_SPF)
    as (Hstep & _ & Hreply).
  - vm_compute. reflexivity.
  - vm_compute. intros H.
    repeat (destruct H as [H|H]; [discriminate H|]). exact H.
  - destruct (Hstep Msg_zero World_start) as (Hq & _).
    destruct (Hreply Examples.rw World_start [] [Examples.q_test] eq_refl)
      as (Hw & _).
    split; [rewrite Hq; reflexivity|].
    split; [rewrite Hw; vm_compute; reflexivity|].
    vm_compute. reflexivity.
Defined.

(** C7. The handler looks the question up under its name without one
    trailing separator, by equality of strings.  When a descriptor is
    stored under exactly that key it is found: the question is answered
    from that descriptor, as with a store holding this one entry, the
    record built from it is appended, and nothing is forwarded.  When no
    key of the store equals it (keys that differ in case, or are a suffix
    of the name, included) it is not found: the question is handled as
    with an empty store, left alone with forwarding off and forwarded with
    forwarding on. *)
Theorem lookup_exact (lib : Library) (config : Config) (records : Records)
    (r msg : dns_Msg) (w : World) (q : dns_Question) :
  let k := strings.TrimSuffix (Name q) "." in
  (Name q = k +:+ "." \/ (k = Name q /\ forall k', Name q <> k' +:+ "."))
  /\ (forall record : Record_,
        records !! k = Some record ->
        handleQuestion lib config records r (msg, w) q
        = handleQuestion lib config {[ k := record ]} r (msg, w) q
        /\ exchanged (snd (handleQuestion lib config records r (msg, w) q))
           = exchanged w
        /\ (forall rr : dns_RR,
              newRecord lib q record = Some (inl rr) ->
              Answer (fst (handleQuestion lib config records r (msg, w) q))
              = Answer msg ++ [set_Ttl rr (TTL record)])
        /\ (newRecord lib q record = None ->
            Answer (fst (handleQuestion lib config records r (msg, w) q))
            = Answer msg
            /\ logged (snd (handleQuestion lib config records r (msg, w) q))
               = logged w ++ ["Unsupported record type: " +:+ Type_ record]))
  /\ ((forall k' : string, k' ∈ dom records -> k' <> k) ->
      records !! k = None
      /\ handleQuestion lib config records r (msg, w) q
         = handleQuestion lib config ∅ r (msg, w) q
      /\ (Enabled (Forwarding config) = false ->
          handleQuestion lib config records r (msg, w) q = (msg, w))
      /\ (Enabled (Forwarding config) = true ->
          forall (resp : dns_Msg) (w' : World),
            requestFromUpsreamServers lib r (Servers (Forwarding config)) w
            = (inl resp, w') ->
            Answer (fst (handleQuestion lib config records r (msg, w) q))
            = Answer msg ++ Answer resp
            /\ snd (handleQuestion lib config records r (msg, w) q) = w')).
Proof.
  intros k. subst k. split; [|split].
  - destruct (strings.HasSuffix (Name q) ".") eqn:Hs.
    + left. apply HasSuffix_dot_true, Hs.
    + right. unfold strings.TrimSuffix. rewrite Hs. split; [reflexivity|].
      intros k'. apply HasSuffix_dot_false, Hs.
  - intros record Hl. unfold handleQuestion.
    rewrite Hl, lookup_singleton_eq, Sprintf_unsupported.
    split; [reflexivity|].
    destruct (newRecord lib q record) as [[rr|e]|];
      cbn [fst snd Answer append_Answer exchanged logged log_Print].
    + split; [reflexivity|]. split; [|discriminate].
      intros rr' H. injection H as <-. reflexivity.
    + split; [reflexivity|]. split; discriminate.
    + split; [reflexivity|]. split; [discriminate|]. intros _.
      split; reflexivity.
  - intros Hno.
    assert (Hl : records !! strings.TrimSuffix (Name q) "." = None).
    { destruct (records !! strings.TrimSuffix (Name q) ".") as [record|] eqn:Hl;
        [|reflexivity].
      exfalso. apply (Hno (strings.TrimSuffix (Name q) ".")); [|reflexivity].
      apply elem_of_dom. eauto. }
    split; [exact Hl|]. unfold handleQuestion. rewrite Hl, lookup_empty.
    split; [reflexivity|]. split.
    + intros ->. reflexivity.
    + intros -> resp w' ->. split; reflexivity.
Qed.

(** Against the sample store: "test.com." is found and answered with its
    A record; "TEST.COM." and "a.test.com." are not found although
    "test.com" is a key: with forwarding off nothing happens, and with
    forwarding on "TEST.COM." is forwarded. *)
Lemma lookup_exact_witness :
  Answer (fst (handleQuestion (Reference.library Reference.offline)
                 Examples.config_off Examples.records
                 (Examples.query [Examples.q_test])
                 (Msg_zero, World_start) Examples.q_test))
  = [{| Header := {| Hdr_Name := "test.com."; Rrtype := "A"; Class := "IN";
                     Ttl := 600 |};
        Rdata := "127.0.0.1" |}]
  /\ handleQuestion (Reference.library Reference.offline) Examples.config_off
       Examples.records (Examples.query [Examples.q_upper])
       (Msg_zero, World_start) Examples.q_upper = (Msg_zero, World_start)
  /\ handleQuestion (Reference.library Reference.offline) Examples.config_off
       Examples.records (Examples.query [Examples.q_sub])
       (Msg_zero, World_start) Examples.q_sub = (Msg_zero, World_start)
  /\ Answer (fst (handleQuestion (Reference.library Examples.first_answers)
                    Examples.config_on Examples.records
                    (Examples.query [Examples.q_upper])
                    (Msg_zero, World_start) Examples.q_upper))
     = [Examples.rr_up1; Examples.rr_up2].
Proof.
  assert (Hdom : forall k' : string, k' ∈ dom Examples.records ->
            k' <> "TEST.COM"%string /\ k' <> "a.test.com"%string).
  { intros k' Hk. apply elem_of_dom in Hk as [x Hx].
    split; intros ->; vm_compute in Hx; discriminate Hx. }
  split; [|split; [|split]].
  - destruct (lookup_exact (Reference.library Reference.offline)
                Examples.config_off Examples.records
                (Examples.query [Examples.q_test]) Msg_zero World_start
                Examples.q_test) as (_ & Hhit & _).
    destruct (Hhit Examples.record_A ltac:(vm_compute; reflexivity))
      as (_ & _ & Hans & _).
    rewrite (Hans {| Header := {| Hdr_Name := "test.com."; Rrtype := "A";
                                  Class := "IN"; Ttl := 3600 |};
                     Rdata := "127.0.0.1" |} eq_refl).
    reflexivity.
  - destruct (lookup_exact (Reference.library Reference.offline)
                Examples.config_off Examples.records
                (Examples.query [Examples.q_upper]) Msg_zero World_start
                Examples.q_upper) as (_ & _ & Hmiss).
    destruct Hmiss as (_ & _ & Hoff & _); [|apply Hoff; reflexivity].
    intros k' Hk. apply (Hdom k' Hk).
  - destruct (lookup_exact (Reference.library Reference.offline)
                Examples.config_off Examples.records
                (Examples.query [Examples.q_sub]) Msg_zero World_start
                Examples.q_sub) as (_ & _ & Hmiss).
    destruct Hmiss as (_ & _ & Hoff & _); [|apply Hoff; reflexivity].
    intros k' Hk. apply (Hdom k' Hk).
  - destruct (lookup_exact (Reference.library Examples.first_answers)
                Examples.config_on Examples.records
                (Examples.query [Examples.q_upper]) Msg_zero World_start
                Examples.q_upper) as (_ & _ & Hmiss).
    destruct Hmiss as (_ & _ & _ & Hon).
    + intros k' Hk. apply (Hdom k' Hk).
    + destruct (Hon eq_refl Examples.response_up _ eq_refl) as [-> _].
      reflexivity.
Defined.
